(** * census-data-downloader: run configuration, geography dispatch and
      the mobility table configs

    A shallow embedding of [census_data_downloader/base.py] and
    [census_data_downloader/tables/mobility.py].

    Python objects are values of one small universe [pyobj]; an instance is
    its class plus its attribute dictionary; a class is its base plus the
    dictionary its body builds, and attribute lookup walks instance, class
    and bases. Code that raises returns [Raised e]; code that touches the
    file system or runs a download routine threads the state explicitly in
    the monad [M]. *)

From Stdlib Require Import ZArith Ascii String List.
From stdpp Require Import base strings gmap list pretty.

Set Warnings "-register-all".
Local Open Scope string_scope.

(** ** Python values *)

(** The geography-specific fetch strategies of [core.downloaders]; base.py
    only names them. *)
Inductive raw_downloader :=
| NationwideRawDownloader
| StatesRawDownloader
| CongressionalDistrictsRawDownloader
| CountiesRawDownloader
| PlacesRawDownloader
| TractsRawDownloader
| StateLegislativeUpperDistrictsRawDownloader
| StateLegislativeLowerDistrictsRawDownloader
| UrbanAreasRawDownloader
| MsasRawDownloader
| CsasRawDownloader
| PumasRawDownloader
| AiannhHomelandsRawDownloader
| ZctasRawDownloader.

(** Function objects found in a class body: a method wrapped by
    [@decorators.downloader] (recorded with the class its body returns), or
    a plain [def]. *)
Inductive function_object :=
| Decorated (returns : raw_downloader)
| Method (name : string).

(** A [pathlib.Path], as its components. *)
Definition path := list string.

Inductive pyobj :=
| PNone
| PBool (b : bool)
| PInt (n : Z)
| PStr (s : string)
| PList (xs : list pyobj)
| PTuple (xs : list pyobj)
| POrderedDict (items : list (string * string))
| PPath (p : path)
| PFunction (f : function_object).

Inductive exn :=
| NotImplementedError (msg : string)
| AttributeError (attr : string)
| TypeError
| ValueError
| IndexError
| FileExistsError (p : path)
| FileNotFoundError (p : path)
| NotADirectoryError (p : path)
| PermissionError
| OSError (errno : string)
| ExternalError (what : string).

Inductive outcome (A : Type) :=
| Returned (a : A)
| Raised (e : exn).
Arguments Returned {A} a.
Arguments Raised {A} e.

(** ** State and exceptions *)

Definition M (S A : Type) : Type := S -> S * outcome A.

Definition ret {S A} (a : A) : M S A := fun s => (s, Returned a).

Definition raise {S A} (e : exn) : M S A := fun s => (s, Raised e).

Definition lift {S A} (o : outcome A) : M S A := fun s => (s, o).

Definition bind {S A B} (c : M S A) (k : A -> M S B) : M S B :=
  fun s =>
    match c s with
    | (s', Returned a) => k a s'
    | (s', Raised e) => (s', Raised e)
    end.

Notation "x <- c ;; k" := (bind c (fun x => k))
  (at level 100, c at next level, right associativity).

Definition obind {A B} (o : outcome A) (k : A -> outcome B) : outcome B :=
  match o with
  | Returned a => k a
  | Raised e => Raised e
  end.

(** ** Builtins *)

Definition is_empty {A} (l : list A) : bool :=
  match l with
  | [] => true
  | _ :: _ => false
  end.

(** [bool(v)]. *)
Definition truthy (v : pyobj) : bool :=
  match v with
  | PNone => false
  | PBool b => b
  | PInt n => negb (Z.eqb n 0)
  | PStr s => negb (String.eqb s "")
  | PList xs => negb (is_empty xs)
  | PTuple xs => negb (is_empty xs)
  | POrderedDict items => negb (is_empty items)
  | PPath _ => true
  | PFunction _ => true
  end.

(** [callable(v)]. *)
Definition callable (v : pyobj) : bool :=
  match v with
  | PFunction _ => true
  | _ => false
  end.

(** [isinstance(v, int)]; [bool] is a subclass of [int]. *)
Definition isinstance_int (v : pyobj) : bool :=
  match v with
  | PInt _ | PBool _ => true
  | _ => false
  end.

(** [isinstance(v, list)]. *)
Definition isinstance_list (v : pyobj) : bool :=
  match v with
  | PList _ => true
  | _ => false
  end.

(** [v is None]. *)
Definition is_None (v : pyobj) : bool :=
  match v with
  | PNone => true
  | _ => false
  end.

(** [v == s] for a string literal [s]. *)
Definition eq_str (v : pyobj) (s : string) : bool :=
  match v with
  | PStr t => String.eqb t s
  | _ => false
  end.

(** [v == n] for an integer [n]: integers compare by value, and [True] and
    [False] are the integers 1 and 0. *)
Definition eq_int (v : pyobj) (n : Z) : bool :=
  match v with
  | PInt k => Z.eqb k n
  | PBool b => Z.eqb (Z.b2z b) n
  | _ => false
  end.

(** [v in t] for a tuple [t] of integers. *)
Definition in_ints (v : pyobj) (t : list Z) : bool :=
  existsb (eq_int v) t.

(** [max(t)] for a tuple of integers. *)
Definition py_max (t : list Z) : outcome Z :=
  match t with
  | [] => Raised ValueError
  | x :: rest => Returned (foldl Z.max x rest)
  end.

(** [t[0]] and [t[-1]]. *)
Definition item_first (t : list Z) : outcome Z :=
  match t with
  | [] => Raised IndexError
  | x :: _ => Returned x
  end.

Definition item_last (t : list Z) : outcome Z :=
  match t with
  | [] => Raised IndexError
  | x :: rest => Returned (List.last rest x)
  end.

(** ** os *)

Module os.

(** [os.getenv(key, default)]: the variable's value when it is set, the
    default otherwise. *)
Definition getenv (environ : gmap string string) (key : string)
    (default : pyobj) : pyobj :=
  match environ !! key with
  | Some v => PStr v
  | None => default
  end.

End os.

(** ** pathlib *)

Module pathlib.

(** Why the operating system refuses a call on a path: no permission
    ([EACCES]), a NUL byte in the name, or any other error number
    ([ENAMETOOLONG], [ENOSPC], [EROFS], ...). *)
Inductive refusal :=
| PermissionDenied
| EmbeddedNul
| Errno (name : string).

(** The exception Python raises for it. *)
Definition refusal_exn (why : refusal) : exn :=
  match why with
  | PermissionDenied => PermissionError
  | EmbeddedNul => ValueError
  | Errno name => OSError name
  end.

(** What the file system has at a path, as [stat] and [mkdir] see it: a
    directory or a regular file (or a link to one); a symbolic link whose
    target is missing, which [stat] does not find and [mkdir] does; a path
    on which [stat], and so every call, is refused; a path where nothing is
    and [mkdir] is refused. A path with no entry has nothing and can be
    made once its parent is a directory. *)
Inductive node :=
| Dir
| File
| DanglingLink
| StatRefused (why : refusal)
| MkdirRefused (why : refusal).

Definition joinpath (p : path) (name : string) : path :=
  (p ++ [name])%list.

Definition parent (p : path) : path := removelast p.

(** [p.exists()]: [stat] follows links; "no such file" and "not a
    directory" make it false, any other error is raised. *)
Definition exists_ (p : path) : M (gmap path node) bool :=
  fun fs =>
    match fs !! p with
    | Some Dir | Some File => (fs, Returned true)
    | Some (StatRefused why) => (fs, Raised (refusal_exn why))
    | Some DanglingLink | Some (MkdirRefused _) | None => (fs, Returned false)
    end.

(** [p.mkdir()], with the default [parents=False, exist_ok=False]. *)
Definition mkdir (p : path) : M (gmap path node) unit :=
  fun fs =>
    match fs !! p with
    | Some Dir | Some File | Some DanglingLink =>
        (fs, Raised (FileExistsError p))
    | Some (StatRefused why) | Some (MkdirRefused why) =>
        (fs, Raised (refusal_exn why))
    | None =>
        match fs !! parent p with
        | Some Dir => (<[p := Dir]> fs, Returned tt)
        | Some File => (fs, Raised (NotADirectoryError p))
        | Some (StatRefused why) => (fs, Raised (refusal_exn why))
        | Some DanglingLink | Some (MkdirRefused _) | None =>
            (fs, Raised (FileNotFoundError p))
        end
    end.

End pathlib.

(** ** Classes and instances *)

Inductive pyclass :=
| Class (name : string) (base : option pyclass) (body : gmap string pyobj).

(** The dictionary a class body leaves: its assignments and [def]s in
    order, a later binding of a name replacing an earlier one. *)
Definition class_body (stmts : list (string * pyobj)) : gmap string pyobj :=
  foldl (fun d kv => <[kv.1 := kv.2]> d) ∅ stmts.

Fixpoint class_getattr (c : pyclass) (name : string) : option pyobj :=
  match c with
  | Class _ base body =>
      match body !! name with
      | Some v => Some v
      | None =>
          match base with
          | Some b => class_getattr b name
          | None => None
          end
      end
  end.

Record object := { ob_class : pyclass; ob_dict : gmap string pyobj }.

(** [self.name]: the instance dictionary first, then the class and its
    bases. *)
Definition getattr (self : object) (name : string) : outcome pyobj :=
  match ob_dict self !! name with
  | Some v => Returned v
  | None =>
      match class_getattr (ob_class self) name with
      | Some v => Returned v
      | None => Raised (AttributeError name)
      end
  end.

(** [getattr(self, name, default)]. *)
Definition getattr_default (self : object) (name : string) (default : pyobj)
    : pyobj :=
  match getattr self name with
  | Returned v => v
  | Raised _ => default
  end.

(** [self.name = v]. *)
Definition setattr (self : object) (name : string) (v : pyobj) : object :=
  {| ob_class := ob_class self; ob_dict := <[name := v]> (ob_dict self) |}.

(** [collections.OrderedDict(d)] for a dict display [d]: keys in order of
    first appearance, each with its last value. *)
Fixpoint od_set (k v : string) (d : list (string * string))
    : list (string * string) :=
  match d with
  | [] => [(k, v)]
  | (k', v') :: d' =>
      if String.eqb k k' then (k, v) :: d' else (k', v') :: od_set k v d'
  end.

Definition OrderedDict (display : list (string * string)) : pyobj :=
  POrderedDict (foldl (fun d kv => od_set kv.1 kv.2 d) [] display).

Section Program.

(** What the program takes from its environment. *)

(** [int(s)] for a string [s]: its value, or [None] where [int] raises
    [ValueError]. *)
Variable int_of_str : string -> option Z.

(** [repr(v)], used where a container, a path or a function is
    interpolated into a string. *)
Variable py_repr : pyobj -> string.

(** [pathlib.Path(str(v))]. *)
Variable Path : pyobj -> path.

(** [pathlib.Path(__file__).parent]: where the package is installed. *)
Variable THIS_DIR : path.

(** The state the download routines act on, and what calling a function
    object on an instance does to it: the new state and the exception
    raised, if any. The routines live in [core.decorators] and
    [core.downloaders]. *)
Variable World : Type.
Variable call : function_object -> object -> World -> World * option exn.

(** The base class of the table configs, from [core.tables]. *)
Variable BaseTableConfig : pyclass.

(** [int(v)]. *)
Definition py_int (v : pyobj) : outcome Z :=
  match v with
  | PInt n => Returned n
  | PBool b => Returned (Z.b2z b)
  | PStr s =>
      match int_of_str s with
      | Some n => Returned n
      | None => Raised ValueError
      end
  | _ => Raised TypeError
  end.

(** [f"{v}"]. *)
Definition format_ (v : pyobj) : string :=
  match v with
  | PStr s => s
  | PInt n => pretty n
  | PBool true => "True"
  | PBool false => "False"
  | PNone => "None"
  | _ => py_repr v
  end.

(** The items [for x in v] visits. *)
Definition py_iter (v : pyobj) : outcome (list pyobj) :=
  match v with
  | PList xs => Returned xs
  | PTuple xs => Returned xs
  | POrderedDict items => Returned (map (fun kv => PStr kv.1) items)
  | PStr s =>
      Returned (map (fun c => PStr (String c "")) (list_ascii_of_string s))
  | _ => Raised TypeError
  end.

(** [list(map(int, xs))]. *)
Fixpoint map_int (xs : list pyobj) : outcome (list pyobj) :=
  match xs with
  | [] => Returned []
  | x :: rest =>
      obind (py_int x) (fun n =>
      obind (map_int rest) (fun ns =>
      Returned (PInt n :: ns)))
  end.

(** ** base.py: class BaseDownloader *)

Definition YEAR_LIST : list Z :=
  [2017; 2016; 2015; 2014; 2013; 2012; 2011; 2010; 2009]%Z.

Definition GEO_LIST : list string :=
  [ "nationwide";
    "states";
    "congressional_districts";
    "counties";
    "places";
    "urban_areas";
    "msas";
    "csas";
    "pumas";
    "aiannh_homelands";
    "zctas";
    "state_legislative_upper_districts";
    "state_legislative_lower_districts";
    "tracts" ].

(** The class body, in the order of the file. The property
    [censusreporter_url] is the function of that name below. *)
Definition BaseDownloader : pyclass :=
  Class "BaseDownloader" None (class_body
    [ ("THIS_DIR", PPath THIS_DIR);
      ("YEAR_LIST", PTuple (map PInt YEAR_LIST));
      ("GEO_LIST", PTuple (map PStr GEO_LIST));
      ("__init__", PFunction (Method "__init__"));
      ("download_nationwide", PFunction (Decorated NationwideRawDownloader));
      ("download_states", PFunction (Decorated StatesRawDownloader));
      ("download_congressional_districts",
        PFunction (Decorated CongressionalDistrictsRawDownloader));
      ("download_counties", PFunction (Decorated CountiesRawDownloader));
      ("download_places", PFunction (Decorated PlacesRawDownloader));
      ("download_tracts", PFunction (Decorated TractsRawDownloader));
      ("download_state_legislative_upper_districts",
        PFunction (Decorated StateLegislativeUpperDistrictsRawDownloader));
      ("download_state_legislative_lower_districts",
        PFunction (Decorated StateLegislativeLowerDistrictsRawDownloader));
      ("download_urban_areas", PFunction (Decorated UrbanAreasRawDownloader));
      ("download_msas", PFunction (Decorated MsasRawDownloader));
      ("download_csas", PFunction (Decorated CsasRawDownloader));
      ("download_pumas", PFunction (Decorated PumasRawDownloader));
      ("download_aiannh_homelands",
        PFunction (Decorated AiannhHomelandsRawDownloader));
      ("download_zctas", PFunction (Decorated ZctasRawDownloader));
      ("download_everything", PFunction (Method "download_everything")) ]).

(** *** __init__ *)

(** Lines 69-79: the four forms of [years]. When none applies, no branch
    runs and [years_to_download] is not assigned. [self.YEAR_LIST] is the
    class constant. *)
Definition set_years_to_download (self : object) (years : pyobj)
    : outcome object :=
  if eq_str years "all" then
    Returned (setattr self "years_to_download" (PTuple (map PInt YEAR_LIST)))
  else if isinstance_int years then
    Returned (setattr self "years_to_download" (PList [years]))
  else if isinstance_list years then
    obind (py_iter years) (fun xs =>
    obind (map_int xs) (fun ys =>
    Returned (setattr self "years_to_download" (PList ys))))
  else if is_None years then
    obind (py_max YEAR_LIST) (fun m =>
    Returned (setattr self "years_to_download" (PTuple [PInt m])))
  else
    Returned self.

(** Lines 82-86: the body of the validation loop. *)
Fixpoint check_years (ys : list pyobj) : outcome unit :=
  match ys with
  | [] => Returned tt
  | year :: rest =>
      if negb (in_ints year YEAR_LIST) then
        obind (item_last YEAR_LIST) (fun lo =>
        obind (item_first YEAR_LIST) (fun hi =>
        Raised (NotImplementedError
          ("Data only available for the years "
             +:+ pretty lo +:+ "-" +:+ pretty hi +:+ "."))))
      else check_years rest
  end.

Definition validate_years (self : object) : outcome unit :=
  obind (getattr self "years_to_download") (fun ytd =>
  obind (py_iter ytd) check_years).

(** Lines 97-102: [if not p.exists(): p.mkdir()]. *)
Definition ensure_dir (p : path) : M (gmap path pathlib.node) unit :=
  present <- pathlib.exists_ p ;;
  if negb present then pathlib.mkdir p else ret tt.

Definition __init__ (environ : gmap string string) (self : object)
    (api_key source years data_dir force : pyobj)
    : M (gmap path pathlib.node) object :=
  let self :=
    setattr self "CENSUS_API_KEY" (os.getenv environ "CENSUS_API_KEY" api_key) in
  key <- lift (getattr self "CENSUS_API_KEY") ;;
  if negb (truthy key) then
    raise (NotImplementedError
      "Census API key required. Pass it as the first argument.")
  else
    let self := setattr self "source" source in
    let self := setattr self "force" force in
    self <- lift (set_years_to_download self years) ;;
    _ <- lift (validate_years self) ;;
    let dir :=
      if truthy data_dir then Path data_dir
      else pathlib.joinpath THIS_DIR "data" in
    let self := setattr self "data_dir" (PPath dir) in
    let raw := pathlib.joinpath dir "raw" in
    let self := setattr self "raw_data_dir" (PPath raw) in
    let processed := pathlib.joinpath dir "processed" in
    let self := setattr self "processed_data_dir" (PPath processed) in
    _ <- ensure_dir dir ;;
    _ <- ensure_dir raw ;;
    _ <- ensure_dir processed ;;
    ret self.

(** A fresh instance of [BaseDownloader], before [__init__] runs. *)
Definition fresh : object := {| ob_class := BaseDownloader; ob_dict := ∅ |}.

(** [BaseDownloader(api_key, source, years, data_dir, force)]: a fresh
    instance, initialised; the instance when [__init__] returns. *)
Definition new_BaseDownloader (environ : gmap string string)
    (api_key source years data_dir force : pyobj)
    : M (gmap path pathlib.node) object :=
  __init__ environ fresh api_key source years data_dir force.

(** *** censusreporter_url *)

Definition censusreporter_url {S : Type} (self : object) : M S pyobj :=
  name <- lift (getattr self "RAW_TABLE_NAME") ;;
  ret (PStr ("https://censusreporter.org/tables/" +:+ format_ name +:+ "/")).

(** *** download_everything *)

(** The state of a run: the routines' state, and the calls made so far,
    each with the geography it was made for. *)
Record run_state := { world : World; invoked : list (string * function_object) }.

(** [dl()]. *)
Definition invoke (geo : string) (dl : pyobj) (self : object)
    : M run_state unit :=
  match dl with
  | PFunction f =>
      fun st =>
        let (w, r) := call f self (world st) in
        ({| world := w; invoked := (invoked st ++ [(geo, f)])%list |},
         match r with
         | None => Returned tt
         | Some e => Raised e
         end)
  | _ => raise TypeError
  end.

Fixpoint download_loop (self : object) (geos : list pyobj)
    : M run_state unit :=
  match geos with
  | [] => ret tt
  | geo :: rest =>
      let dl := getattr_default self ("download_" +:+ format_ geo) PNone in
      if negb (truthy dl) || negb (callable dl) then
        raise (NotImplementedError
          ("Invalid geography type: " +:+ format_ geo))
      else
        _ <- invoke (format_ geo) dl self ;;
        download_loop self rest
  end.

Definition download_everything (self : object) : M run_state unit :=
  geo_list <- lift (getattr self "GEO_LIST") ;;
  geos <- lift (py_iter geo_list) ;;
  download_loop self geos.

(** ** tables/mobility.py *)

(** Each class statement is decorated with [@register] (from
    [core.decorators]), which records the class; the name stays bound to
    the class, as the class statements that extend it require. *)

Definition MobilityDownloader : pyclass :=
  Class "MobilityDownloader" (Some BaseTableConfig) (class_body
    [ ("PROCESSED_TABLE_NAME", PStr "mobility");
      ("UNIVERSE", PStr "population 1 year and over");
      ("RAW_TABLE_NAME", PStr "B07003");
      ("RAW_FIELD_CROSSWALK", OrderedDict
        [ ("001E", "universe");
          ("004E", "same_house");
          ("007E", "moved_within_county");
          ("010E", "moved_from_different_county_in_same_state");
          ("013E", "moved_from_different_state");
          ("016E", "moved_from_abroad") ]) ]).

Definition MobilityBySexDownloader : pyclass :=
  Class "MobilityBySexDownloader" (Some MobilityDownloader) (class_body
    [ ("PROCESSED_TABLE_NAME", PStr "mobilitybysex");
      ("RAW_FIELD_CROSSWALK", OrderedDict
        [ ("001E", "universe");
          ("002E", "male_total");
          ("003E", "female_total");
          ("004E", "total_same_house");
          ("005E", "male_same_house");
          ("006E", "female_same_house");
          ("007E", "total_moved_within_county");
          ("008E", "male_moved_within_county");
          ("009E", "female_moved_within_county");
          ("010E", "total_moved_from_different_county_in_same_state");
          ("011E", "male_moved_from_different_county_in_same_state");
          ("012E", "female_moved_from_different_county_in_same_state");
          ("013E", "total_moved_from_different_state");
          ("014E", "male_moved_from_different_state");
          ("015E", "female_moved_from_different_state");
          ("016E", "total_moved_from_abroad");
          ("017E", "male_moved_from_abroad");
          ("018E", "female_moved_from_abroad") ]) ]).

Definition MobilityWhiteDownloader : pyclass :=
  Class "MobilityWhiteDownloader" (Some BaseTableConfig) (class_body
    [ ("PROCESSED_TABLE_NAME", PStr "mobilitywhite");
      ("UNIVERSE", PStr "population 1 year and over");
      ("RAW_TABLE_NAME", PStr "B07004H");
      ("RAW_FIELD_CROSSWALK", OrderedDict
        [ ("001E", "universe");
          ("002E", "same_house");
          ("003E", "moved_within_county");
          ("004E", "moved_from_different_county_in_same_state");
          ("005E", "moved_from_different_state");
          ("006E", "moved_from_abroad") ]) ]).

Definition MobilityBlackDownloader : pyclass :=
  Class "MobilityBlackDownloader" (Some MobilityWhiteDownloader) (class_body
    [ ("PROCESSED_TABLE_NAME", PStr "mobilityblack");
      ("RAW_TABLE_NAME", PStr "B07004B") ]).

Definition MobilityAsianDownloader : pyclass :=
  Class "MobilityAsianDownloader" (Some MobilityWhiteDownloader) (class_body
    [ ("PROCESSED_TABLE_NAME", PStr "mobilityasian");
      ("RAW_TABLE_NAME", PStr "B07004D") ]).

Definition MobilityLatinoDownloader : pyclass :=
  Class "MobilityLatinoDownloader" (Some MobilityWhiteDownloader) (class_body
    [ ("PROCESSED_TABLE_NAME", PStr "mobilitylatino");
      ("RAW_TABLE_NAME", PStr "B07004I") ]).

(** ** Notions used in the statements *)

(** The base directory [__init__] settles on. *)
Definition base_dir (data_dir : pyobj) : path :=
  if truthy data_dir then Path data_dir else pathlib.joinpath THIS_DIR "data".

(** The instance after lines 58-62. *)
Definition with_inputs (environ : gmap string string) (self : object)
    (api_key source force : pyobj) : object :=
  setattr (setattr (setattr self
    "CENSUS_API_KEY" (os.getenv environ "CENSUS_API_KEY" api_key))
    "source" source)
    "force" force.

(** The instance after lines 89-94. *)
Definition with_dirs (self : object) (dir : path) : object :=
  setattr (setattr (setattr self
    "data_dir" (PPath dir))
    "raw_data_dir" (PPath (pathlib.joinpath dir "raw")))
    "processed_data_dir" (PPath (pathlib.joinpath dir "processed")).

(** Lines 97-102. *)
Definition make_dirs (dir : path) : M (gmap path pathlib.node) unit :=
  _ <- ensure_dir dir ;;
  _ <- ensure_dir (pathlib.joinpath dir "raw") ;;
  ensure_dir (pathlib.joinpath dir "processed").

(** The years the validation loop visits: the items of
    [years_to_download] once the four-way branch has run. *)
Definition resolved_years (self : object) (years : pyobj)
    : outcome (list pyobj) :=
  obind (set_years_to_download self years) (fun self' =>
  obind (getattr self' "years_to_download") py_iter).

(** The number a year stands for. *)
Definition year_value (y : pyobj) : option Z :=
  match y with
  | PInt n => Some n
  | PBool b => Some (Z.b2z b)
  | _ => None
  end.

(** Membership in the supported set 2009..2017. *)
Definition supported_year (y : pyobj) : Prop :=
  exists n, year_value y = Some n /\ (2009 <= n <= 2017)%Z.

(** The routine [download_everything] finds for a geography, if any: an
    attribute [download_<geo>] that is truthy and callable. *)
Definition routine_of (self : object) (geo : string)
    : option function_object :=
  match getattr_default self ("download_" +:+ geo) PNone with
  | PFunction f => Some f
  | _ => None
  end.

(** The calls a run makes for the geographies [geos], in order. *)
Definition routines (self : object) (geos : list string)
    : list (string * function_object) :=
  omap (fun geo => option_map (pair geo) (routine_of self geo)) geos.

(** A routine that raises nothing, whatever the state. *)
Definition returns_normally (f : function_object) (self : object) : Prop :=
  forall w, (call f self w).2 = None.

(** [self.GEO_LIST] holds the strings [geos], in that order. *)
Definition declares (self : object) (geos : list string) : Prop :=
  exists v, getattr self "GEO_LIST" = Returned v
            /\ py_iter v = Returned (map PStr geos).

Definition class_dict (c : pyclass) : gmap string pyobj :=
  match c with
  | Class _ _ body => body
  end.

(** The attributes [__init__] sets on the instance. *)
Definition instance_attributes : list string :=
  [ "CENSUS_API_KEY"; "source"; "force"; "years_to_download";
    "data_dir"; "raw_data_dir"; "processed_data_dir" ].

(** How a file system may differ after a run that makes directories among
    [ps] only: every path is as it was, or is one of [ps], was absent and
    is now a directory. *)
Definition only_adds (ps : list path) (fs fs' : gmap path pathlib.node)
    : Prop :=
  forall p,
    fs' !! p = fs !! p
    \/ (p ∈ ps /\ fs !! p = None /\ fs' !! p = Some pathlib.Dir).

(** The errors [exists] and [mkdir] raise on a path. *)
Definition path_error (p : path) (e : exn) : Prop :=
  e = FileExistsError p
  \/ e = FileNotFoundError p
  \/ e = NotADirectoryError p
  \/ exists why, e = pathlib.refusal_exn why.

(** The three directories of a run. *)
Definition run_dirs (data_dir : pyobj) : list path :=
  [ base_dir data_dir;
    pathlib.joinpath (base_dir data_dir) "raw";
    pathlib.joinpath (base_dir data_dir) "processed" ].

(** ** Worked inputs *)

(** Stand-ins for the environment, used where a statement is run on a
    concrete input: [int] reading plain decimal digits, a one-component
    [Path], an install directory, a file system holding the current
    directory only, and routines that return without raising. *)
Definition digit_of (c : ascii) : option Z :=
  let n := Z.of_nat (nat_of_ascii c) in
  if (48 <=? n)%Z && (n <=? 57)%Z then Some (n - 48)%Z else None.

Fixpoint digits_value (acc : Z) (s : string) : option Z :=
  match s with
  | EmptyString => Some acc
  | String c rest =>
      match digit_of c with
      | Some d => digits_value (10 * acc + d)%Z rest
      | None => None
      end
  end.

Definition example_int_of_str (s : string) : option Z :=
  match s with
  | EmptyString => None
  | _ => digits_value 0 s
  end.

Definition example_repr (v : pyobj) : string := "<object>".

Definition example_Path (v : pyobj) : path :=
  match v with
  | PStr s => [s]
  | PPath p => p
  | _ => []
  end.

Definition example_THIS_DIR : path := ["census_data_downloader"].

Definition example_fs : gmap path pathlib.node := {[ [] := pathlib.Dir ]}.

(** [example_fs] once [out], [out/raw] and [out/processed] are made. *)
Definition example_fs_after : gmap path pathlib.node :=
  <[ ["out"; "processed"] := pathlib.Dir ]>
    (<[ ["out"; "raw"] := pathlib.Dir ]>
      (<[ ["out"] := pathlib.Dir ]> example_fs)).

(** A directory [out] in which [raw] is a regular file. *)
Definition example_fs_raw_file : gmap path pathlib.node :=
  <[ ["out"; "raw"] := pathlib.File ]>
    (<[ ["out"] := pathlib.Dir ]> example_fs).



(** Routines of which the one for counties fails. *)
Definition example_failing_call (f : function_object) (self : object)
    (w : unit) : unit * option exn :=
  match f with
  | Decorated CountiesRawDownloader => (w, Some (ExternalError "HTTP 500"))
  | _ => (w, None)
  end.

Definition example_BaseTableConfig : pyclass := Class "BaseTableConfig" None ∅.

Definition example_environ : gmap string string :=
  {[ "CENSUS_API_KEY" := "from-env" ]}.

(** The instance [BaseDownloader("from-arg", "acs5", [2012, 2010], "out",
    False)] builds under [example_environ]. *)
Definition example_instance : object :=
  with_dirs
    (setattr
       (with_inputs example_environ fresh
          (PStr "from-arg") (PStr "acs5") (PBool false))
       "years_to_download" (PList [PInt 2012; PInt 2010]))
    ["out"].


(** ** Attribute access *)

Lemma getattr_setattr_eq self name v :
  getattr (setattr self name v) name = Returned v.
Proof. unfold getattr, setattr; simpl. by rewrite lookup_insert_eq. Qed.

Lemma getattr_setattr_ne self name name' v :
  name <> name' -> getattr (setattr self name v) name' = getattr self name'.
Proof.
  intros Hne. unfold getattr, setattr; simpl. by rewrite lookup_insert_ne.
Qed.

Lemma getattr_with_dirs self dir name :
  name <> "data_dir" -> name <> "raw_data_dir" ->
  name <> "processed_data_dir" ->
  getattr (with_dirs self dir) name = getattr self name.
Proof.
  intros H1 H2 H3. unfold with_dirs.
  by rewrite !getattr_setattr_ne.
Qed.

Lemma getattr_with_inputs environ self api_key source force name :
  name <> "CENSUS_API_KEY" -> name <> "source" -> name <> "force" ->
  getattr (with_inputs environ self api_key source force) name
  = getattr self name.
Proof.
  intros H1 H2 H3. unfold with_inputs.
  by rewrite !getattr_setattr_ne.
Qed.

(** ** The shape of [__init__] *)

(** [__init__] stage by stage: the key, the years, their validation, the
    directories. *)
Lemma init_stages environ self api_key source years data_dir force fs :
  __init__ environ self api_key source years data_dir force fs =
    if negb (truthy (os.getenv environ "CENSUS_API_KEY" api_key)) then
      (fs, Raised (NotImplementedError
             "Census API key required. Pass it as the first argument."))
    else
      match set_years_to_download
              (with_inputs environ self api_key source force) years with
      | Raised e => (fs, Raised e)
      | Returned self1 =>
          match validate_years self1 with
          | Raised e => (fs, Raised e)
          | Returned _ =>
              match make_dirs (base_dir data_dir) fs with
              | (fs', Returned _) =>
                  (fs', Returned (with_dirs self1 (base_dir data_dir)))
              | (fs', Raised e) => (fs', Raised e)
              end
          end
      end.
Proof.
  unfold __init__, bind, lift, raise. rewrite getattr_setattr_eq.
  destruct (truthy _); simpl; [| done].
  fold (with_inputs environ self api_key source force).
  destruct (set_years_to_download _ _) as [self1 | e]; [| done].
  destruct (validate_years self1) as [[] | e]; [| done].
  fold (base_dir data_dir). unfold make_dirs, bind.
  destruct (ensure_dir (base_dir data_dir) fs) as [fs1 [[] | e1]]; [| done].
  destruct (ensure_dir _ fs1) as [fs2 [[] | e2]]; [| done].
  by destruct (ensure_dir _ fs2) as [fs3 [[] | e3]].
Qed.

(** ** The years *)


(** The years branch touches no attribute but [years_to_download]. *)
Lemma set_years_keeps self years self' name :
  set_years_to_download self years = Returned self' ->
  name <> "years_to_download" ->
  getattr self' name = getattr self name.
Proof.
  intros Hset Hname. revert Hset. unfold set_years_to_download.
  destruct (eq_str years "all").
  { intros [= <-]. by apply getattr_setattr_ne. }
  destruct (isinstance_int years).
  { intros [= <-]. by apply getattr_setattr_ne. }
  destruct (isinstance_list years).
  { destruct (py_iter years) as [xs | e]; simpl; [| done].
    destruct (map_int xs) as [ys | e]; simpl; [| done].
    intros [= <-]. by apply getattr_setattr_ne. }
  destruct (is_None years).
  { simpl. intros [= <-]. by apply getattr_setattr_ne. }
  by intros [= <-].
Qed.

(** A [BaseDownloader] has no class attribute [years_to_download]: before
    the branch runs, the lookup fails. *)
Lemma years_unset_before environ api_key source force :
  getattr (with_inputs environ fresh api_key source force)
    "years_to_download"
  = Raised (AttributeError "years_to_download").
Proof. by rewrite getattr_with_inputs. Qed.

(** The resolved years do not depend on the attributes set before. *)
Lemma resolved_years_with_inputs environ api_key source force years :
  resolved_years (with_inputs environ fresh api_key source force) years
  = resolved_years fresh years.
Proof.
  unfold resolved_years, set_years_to_download.
  destruct (eq_str years "all"); simpl.
  { by rewrite !getattr_setattr_eq. }
  destruct (isinstance_int years); simpl.
  { by rewrite !getattr_setattr_eq. }
  destruct (isinstance_list years); simpl.
  { destruct (py_iter years) as [xs | e]; simpl; [| done].
    destruct (map_int xs) as [ys | e]; simpl; [| done].
    by rewrite !getattr_setattr_eq. }
  destruct (is_None years); simpl.
  { by rewrite !getattr_setattr_eq. }
  by rewrite years_unset_before.
Qed.

(** What a returning [__init__] went through. *)
Lemma init_returned environ self api_key source years data_dir force
    fs fs' self' :
  __init__ environ self api_key source years data_dir force fs
  = (fs', Returned self') ->
  truthy (os.getenv environ "CENSUS_API_KEY" api_key) = true
  /\ exists self1,
       set_years_to_download
         (with_inputs environ self api_key source force) years
       = Returned self1
       /\ validate_years self1 = Returned tt
       /\ make_dirs (base_dir data_dir) fs = (fs', Returned tt)
       /\ self' = with_dirs self1 (base_dir data_dir).
Proof.
  rewrite init_stages.
  destruct (truthy _); simpl; [| done].
  destruct (set_years_to_download _ _) as [self1 | e]; [| done].
  destruct (validate_years self1) as [[] | e] eqn:Hv; [| done].
  destruct (make_dirs _ fs) as [fs1 [[] | e]]; [| done].
  intros [= <- <-]. split; [done |]. by exists self1.
Qed.


(** ** The API key *)

(** C4, as the code has it. The environment variable comes first and the
    argument is the fallback: a constructed [BaseDownloader] uses the
    value of [CENSUS_API_KEY] whenever the variable is set, and the
    [api_key] argument only when it is not set. *)
Theorem api_key_environment_first environ api_key source years data_dir
    force fs fs' self :
  new_BaseDownloader environ api_key source years data_dir force fs
  = (fs', Returned self) ->
  (forall v, environ !! "CENSUS_API_KEY" = Some v ->
     getattr self "CENSUS_API_KEY" = Returned (PStr v))
  /\ (environ !! "CENSUS_API_KEY" = None ->
       getattr self "CENSUS_API_KEY" = Returned api_key).
Proof.
  intros Hnew. apply init_returned in Hnew
    as (_ & self1 & Hset & _ & _ & ->).
  assert (Hkey : getattr (with_dirs self1 (base_dir data_dir))
                   "CENSUS_API_KEY"
                 = Returned (os.getenv environ "CENSUS_API_KEY" api_key)).
  { rewrite getattr_with_dirs by done.
    rewrite (set_years_keeps _ _ _ "CENSUS_API_KEY" Hset) by done.
    unfold with_inputs.
    rewrite !getattr_setattr_ne by done. apply getattr_setattr_eq. }
  rewrite Hkey. unfold os.getenv.
  split; [by intros v -> | by intros ->].
Qed.

(** C5. With no [api_key] argument and [CENSUS_API_KEY] unset or empty,
    construction raises the configuration error at once: whatever the
    other arguments are, nothing else is looked at and the file system is
    left as it was. *)
Theorem missing_api_key_fails_first environ source years data_dir force fs :
  environ !! "CENSUS_API_KEY" = None
    \/ environ !! "CENSUS_API_KEY" = Some "" ->
  new_BaseDownloader environ PNone source years data_dir force fs
  = (fs, Raised (NotImplementedError
           "Census API key required. Pass it as the first argument.")).
Proof.
  intros Henv. unfold new_BaseDownloader. rewrite init_stages.
  unfold os.getenv. by destruct Henv as [-> | ->].
Qed.

(** C9. When [years] is none of the four accepted forms (not ["all"], not
    an int, not a list, not [None]: a string such as ["2017"], a tuple),
    no branch assigns [years_to_download], so the instance leaves lines
    69-79 as it entered them, and construction ends in the attribute-lookup
    error of the validation loop, not in a configuration error. *)
Theorem unrecognised_years_attribute_error environ api_key source years
    data_dir force fs :
  truthy (os.getenv environ "CENSUS_API_KEY" api_key) = true ->
  years <> PStr "all" ->
  isinstance_int years = false ->
  isinstance_list years = false ->
  years <> PNone ->
  set_years_to_download
    (with_inputs environ fresh api_key source force) years
  = Returned (with_inputs environ fresh api_key source force)
  /\ new_BaseDownloader environ api_key source years data_dir force fs
     = (fs, Raised (AttributeError "years_to_download")).
Proof.
  intros Hkey Hall Hint Hlist Hnone.
  assert (Hset : set_years_to_download
                   (with_inputs environ fresh api_key source force) years
                 = Returned (with_inputs environ fresh api_key source force)).
  { unfold set_years_to_download. rewrite Hint, Hlist.
    assert (eq_str years "all" = false) as ->.
    { destruct years; simpl; try done.
      destruct (String.eqb_spec s "all"); [by subst | done]. }
    by assert (is_None years = false) as -> by by destruct years. }
  split; [exact Hset |].
  unfold new_BaseDownloader. rewrite init_stages, Hkey, Hset; simpl.
  unfold validate_years. by rewrite years_unset_before.
Qed.

(** ** Validation of the years *)

Lemma in_ints_supported y :
  in_ints y YEAR_LIST = true <-> supported_year y.
Proof.
  unfold in_ints, supported_year. split.
  - intros Hin. apply existsb_exists in Hin as (n & Hn & Heq).
    exists n. split.
    + destruct y; simpl in *; try done; apply Z.eqb_eq in Heq; by subst.
    + unfold YEAR_LIST in Hn. simpl in Hn. lia.
  - intros (n & Hval & Hrange). apply existsb_exists. exists n. split.
    + assert (n = 2017 \/ n = 2016 \/ n = 2015 \/ n = 2014 \/ n = 2013
              \/ n = 2012 \/ n = 2011 \/ n = 2010 \/ n = 2009)%Z
        as Hcases by lia.
      unfold YEAR_LIST. simpl. lia.
    + destruct y; simpl in *; try done;
        injection Hval as <-; apply Z.eqb_refl.
Qed.

Lemma check_years_supported elems :
  Forall supported_year elems -> check_years elems = Returned tt.
Proof.
  induction 1 as [| y elems Hy _ IH]; cbn [check_years]; [done |].
  apply in_ints_supported in Hy. by rewrite Hy.
Qed.

Lemma check_years_unsupported elems :
  Exists (fun y => ~ supported_year y) elems ->
  check_years elems
  = Raised (NotImplementedError
      "Data only available for the years 2009-2017.").
Proof.
  induction elems as [| y elems IH]; intros Hex.
  - by apply Exists_nil in Hex.
  - cbn [check_years]. destruct (in_ints y YEAR_LIST) eqn:Hin; simpl.
    + apply in_ints_supported in Hin.
      apply Exists_cons in Hex as [Hy | Hrest]; [done | by apply IH].
    + reflexivity.
Qed.

(** [if not p.exists(): p.mkdir()], case by case: the path is found and
    nothing is done; it has no entry, its parent is a directory and it is
    made; or one of the two calls raises and nothing is done. *)
Lemma ensure_dir_cases p fs fs' r :
  ensure_dir p fs = (fs', r) ->
  ((fs !! p = Some pathlib.Dir \/ fs !! p = Some pathlib.File)
   /\ fs' = fs /\ r = Returned tt)
  \/ (fs !! p = None /\ fs !! pathlib.parent p = Some pathlib.Dir
      /\ fs' = <[p := pathlib.Dir]> fs /\ r = Returned tt)
  \/ (fs' = fs /\ exists e, r = Raised e /\ path_error p e).
Proof.
  unfold ensure_dir, bind, pathlib.exists_, pathlib.mkdir, ret, path_error.
  destruct (fs !! p) as [[| | | why | why] |] eqn:Hp; simpl;
    rewrite ?Hp; try (intros [= <- <-]).
  - left. split; [by left | done].
  - left. split; [by right | done].
  - right. right. split; [done |]. eexists. split; [done |]. by left.
  - right. right. split; [done |]. eexists. split; [done |].
    do 3 right. by exists why.
  - right. right. split; [done |]. eexists. split; [done |].
    do 3 right. by exists why.
  - destruct (fs !! pathlib.parent p) as [[| | | why | why] |];
      intros [= <- <-].
    + right. left. done.
    + right. right. split; [done |]. eexists. split; [done |].
      right. right. by left.
    + right. right. split; [done |]. eexists. split; [done |].
      right. by left.
    + right. right. split; [done |]. eexists. split; [done |].
      do 3 right. by exists why.
    + right. right. split; [done |]. eexists. split; [done |].
      right. by left.
    + right. right. split; [done |]. eexists. split; [done |].
      right. by left.
Qed.

(** [make_dirs] raises file-system errors only. *)
Lemma ensure_dir_raised p fs fs' e :
  ensure_dir p fs = (fs', Raised e) ->
  forall msg, e <> NotImplementedError msg.
Proof.
  intros Hrun msg. apply ensure_dir_cases in Hrun
    as [(_ & _ & [=]) | [(_ & _ & _ & [=]) | (_ & e' & [= <-] & Herr)]].
  destruct Herr as [-> | [-> | [-> | [why ->]]]]; try done.
  by destruct why.
Qed.

Lemma make_dirs_raised dir fs fs' e :
  make_dirs dir fs = (fs', Raised e) ->
  forall msg, e <> NotImplementedError msg.
Proof.
  unfold make_dirs, bind.
  destruct (ensure_dir dir fs) as [fs1 [[] | e1]] eqn:H1.
  - destruct (ensure_dir _ fs1) as [fs2 [[] | e2]] eqn:H2.
    + apply ensure_dir_raised.
    + intros [= <- <-]. by eapply ensure_dir_raised.
  - intros [= <- <-]. by eapply ensure_dir_raised.
Qed.

(** C3. Once the key is there and the years are resolved: if some
    resolved year is outside 2009..2017, construction raises the
    configuration error that names the range 2009-2017 (and leaves the file
    system alone); if all of them are inside, the validation returns and
    construction raises no configuration error. *)
Theorem year_validation environ api_key source years data_dir force fs
    elems :
  truthy (os.getenv environ "CENSUS_API_KEY" api_key) = true ->
  resolved_years fresh years = Returned elems ->
  (Exists (fun y => ~ supported_year y) elems ->
     new_BaseDownloader environ api_key source years data_dir force fs
     = (fs, Raised (NotImplementedError
              "Data only available for the years 2009-2017.")))
  /\ (Forall supported_year elems ->
       (exists self1,
          set_years_to_download
            (with_inputs environ fresh api_key source force) years
          = Returned self1
          /\ validate_years self1 = Returned tt)
       /\ forall msg,
            (new_BaseDownloader environ api_key source years data_dir
               force fs).2
            <> Raised (NotImplementedError msg)).
Proof.
  intros Hkey Hres.
  rewrite <- (resolved_years_with_inputs environ api_key source force)
    in Hres.
  unfold resolved_years in Hres.
  unfold new_BaseDownloader. rewrite init_stages, Hkey; simpl.
  destruct (set_years_to_download _ years) as [self1 | e]; [| done].
  simpl in Hres.
  assert (Hloop : validate_years self1 = check_years elems).
  { unfold validate_years.
    destruct (getattr self1 "years_to_download") as [ytd | e]; [| done].
    simpl in Hres |- *. by rewrite Hres. }
  rewrite Hloop.
  split.
  - intros Hbad. by rewrite (check_years_unsupported _ Hbad).
  - intros Hgood. rewrite (check_years_supported _ Hgood).
    split.
    { exists self1. split; [done |].
      by rewrite Hloop, check_years_supported. }
    intros msg.
    destruct (make_dirs _ fs) as [fs' [[] | e]] eqn:Hdirs; simpl; [done |].
    intros [= ->]. by eapply make_dirs_raised.
Qed.

(** ** The directories *)

(** [exists] finds directories and regular files. *)
Lemma exists_found p fs :
  fs !! p = Some pathlib.Dir \/ fs !! p = Some pathlib.File ->
  pathlib.exists_ p fs = (fs, Returned true).
Proof. unfold pathlib.exists_. by intros [-> | ->]. Qed.

Lemma ensure_dir_present p fs :
  fs !! p = Some pathlib.Dir \/ fs !! p = Some pathlib.File ->
  ensure_dir p fs = (fs, Returned tt).
Proof.
  intros Hp. unfold ensure_dir, bind. by rewrite (exists_found _ _ Hp).
Qed.

Lemma ensure_dir_returned p fs fs' :
  ensure_dir p fs = (fs', Returned tt) ->
  ((fs !! p = Some pathlib.Dir \/ fs !! p = Some pathlib.File) /\ fs' = fs)
  \/ (fs !! p = None /\ fs' = <[p := pathlib.Dir]> fs).
Proof.
  intros Hrun. apply ensure_dir_cases in Hrun
    as [(Hp & -> & _) | [(Hp & _ & -> & _) | (_ & e & [=] & _)]].
  - by left.
  - by right.
Qed.

Lemma joinpath_ne dir name : pathlib.joinpath dir name <> dir.
Proof.
  unfold pathlib.joinpath. intros Heq.
  apply (f_equal length) in Heq. rewrite length_app in Heq. simpl in Heq.
  lia.
Qed.

Lemma joinpath_inj dir name name' :
  pathlib.joinpath dir name = pathlib.joinpath dir name' -> name = name'.
Proof.
  unfold pathlib.joinpath. intros Heq.
  apply app_inv_head in Heq. by injection Heq.
Qed.

Lemma make_dirs_returned dir fs fs' :
  make_dirs dir fs = (fs', Returned tt) ->
  Forall (fun p => (fs' !! p = Some pathlib.Dir \/ fs' !! p = Some pathlib.File)
                   /\ (fs !! p = None -> fs' !! p = Some pathlib.Dir)
                   /\ (forall n, fs !! p = Some n -> fs' !! p = Some n))
    [dir; pathlib.joinpath dir "raw"; pathlib.joinpath dir "processed"].
Proof.
  unfold make_dirs, bind.
  destruct (ensure_dir dir fs) as [fs1 [[] | e1]] eqn:H1; [| done].
  destruct (ensure_dir _ fs1) as [fs2 [[] | e2]] eqn:H2; [| done].
  intros H3.
  pose proof (joinpath_ne dir "raw") as Nraw.
  pose proof (joinpath_ne dir "processed") as Nproc.
  assert (Nrp : pathlib.joinpath dir "raw" <> pathlib.joinpath dir "processed").
  { intros Heq. by apply joinpath_inj in Heq. }
  apply ensure_dir_returned in H1 as [[[Hd1 | Hd1] ->] | [Hd1 ->]];
  apply ensure_dir_returned in H2 as [[[Hd2 | Hd2] ->] | [Hd2 ->]];
  apply ensure_dir_returned in H3 as [[[Hd3 | Hd3] ->] | [Hd3 ->]];
  repeat first [apply Forall_cons_2 | apply Forall_nil_2];
  (split; [| split; [intros Hnone | intros n Hn]]);
  repeat first [ rewrite lookup_insert_eq in *
               | rewrite lookup_insert_ne in * by done ];
  first [done | by left | by right | congruence].
Qed.

Lemma make_dirs_present dir fs :
  Forall (fun p => fs !! p = Some pathlib.Dir \/ fs !! p = Some pathlib.File)
    [dir; pathlib.joinpath dir "raw"; pathlib.joinpath dir "processed"] ->
  make_dirs dir fs = (fs, Returned tt).
Proof.
  intros Hall.
  apply Forall_cons in Hall as [Hd Hall].
  apply Forall_cons in Hall as [Hr Hall].
  apply Forall_cons in Hall as [Hp _].
  unfold make_dirs, bind.
  by rewrite !ensure_dir_present.
Qed.

(** C7, as the code has it. Construction leaves [data_dir], [data_dir/raw]
    and [data_dir/processed] such that [exists] finds each: a path that had
    nothing is made a directory, and a path that had something keeps what
    it had, a regular file included. Constructing again with the same
    arguments, on the file system the first construction left, returns the
    same instance without error and changes nothing. *)
Theorem directory_creation_idempotent environ api_key source years data_dir
    force fs fs1 self :
  new_BaseDownloader environ api_key source years data_dir force fs
  = (fs1, Returned self) ->
  (getattr self "data_dir" = Returned (PPath (base_dir data_dir))
   /\ getattr self "raw_data_dir"
      = Returned (PPath (pathlib.joinpath (base_dir data_dir) "raw"))
   /\ getattr self "processed_data_dir"
      = Returned (PPath (pathlib.joinpath (base_dir data_dir) "processed")))
  /\ Forall (fun p => pathlib.exists_ p fs1 = (fs1, Returned true)
                      /\ (fs !! p = None -> fs1 !! p = Some pathlib.Dir)
                      /\ (forall n, fs !! p = Some n -> fs1 !! p = Some n))
       [ base_dir data_dir;
         pathlib.joinpath (base_dir data_dir) "raw";
         pathlib.joinpath (base_dir data_dir) "processed" ]
  /\ new_BaseDownloader environ api_key source years data_dir force fs1
     = (fs1, Returned self).
Proof.
  intros Hnew. apply init_returned in Hnew
    as (Hkey & self1 & Hset & Hval & Hdirs & ->).
  apply make_dirs_returned in Hdirs.
  split; [| split].
  - unfold with_dirs.
    repeat split; rewrite ?getattr_setattr_ne by done;
      apply getattr_setattr_eq.
  - eapply Forall_impl; [exact Hdirs |].
    intros p (Hfound & Hnew & Hkeep). split; [| done].
    by apply exists_found.
  - unfold new_BaseDownloader. rewrite init_stages, Hkey, Hset, Hval; simpl.
    rewrite make_dirs_present; [done |].
    eapply Forall_impl; [exact Hdirs |]. by intros p [Hp _].
Qed.

(** ** The documentation URL *)

(** C8. For every instance whose [RAW_TABLE_NAME] is a string, the URL is
    "https://censusreporter.org/tables/", the table name, and "/": a
    function of the table name alone, that leaves the state it runs in
    untouched, whatever that state is. *)
Theorem censusreporter_url_template (S : Type) (st : S) self name :
  getattr self "RAW_TABLE_NAME" = Returned (PStr name) ->
  censusreporter_url self st
  = (st, Returned (PStr
           ("https://censusreporter.org/tables/" +:+ name +:+ "/"))).
Proof.
  intros Hname. unfold censusreporter_url, bind, lift, ret.
  by rewrite Hname.
Qed.

(** ** The mobility configs *)

(** C6. [MobilityBlackDownloader] extends [MobilityWhiteDownloader] and
    its body binds only [PROCESSED_TABLE_NAME] and [RAW_TABLE_NAME] (to
    B07004B), so its crosswalk is the one of [MobilityWhiteDownloader]:
    the same six raw codes with the same names in the same order. The same
    holds of [MobilityAsianDownloader] and [MobilityLatinoDownloader]. *)
Theorem mobility_crosswalk_inherited :
  class_getattr MobilityWhiteDownloader "RAW_FIELD_CROSSWALK"
  = Some (POrderedDict
      [ ("001E", "universe");
        ("002E", "same_house");
        ("003E", "moved_within_county");
        ("004E", "moved_from_different_county_in_same_state");
        ("005E", "moved_from_different_state");
        ("006E", "moved_from_abroad") ])
  /\ Forall (fun c =>
       class_getattr c "RAW_FIELD_CROSSWALK"
       = class_getattr MobilityWhiteDownloader "RAW_FIELD_CROSSWALK"
       /\ dom (class_dict c)
          = ({[ "PROCESSED_TABLE_NAME"; "RAW_TABLE_NAME" ]} : gset string))
     [ MobilityBlackDownloader;
       MobilityAsianDownloader;
       MobilityLatinoDownloader ]
  /\ class_getattr MobilityWhiteDownloader "RAW_TABLE_NAME"
     = Some (PStr "B07004H")
  /\ class_getattr MobilityBlackDownloader "RAW_TABLE_NAME"
     = Some (PStr "B07004B")
  /\ class_getattr MobilityAsianDownloader "RAW_TABLE_NAME"
     = Some (PStr "B07004D")
  /\ class_getattr MobilityLatinoDownloader "RAW_TABLE_NAME"
     = Some (PStr "B07004I").
Proof.
  split; [vm_compute; reflexivity |].
  split; [| repeat split; vm_compute; reflexivity].
  repeat first [apply Forall_cons_2 | apply Forall_nil_2];
    (split; [vm_compute; reflexivity |]);
    cbn [class_dict MobilityBlackDownloader MobilityAsianDownloader
         MobilityLatinoDownloader class_body foldl fst snd];
    rewrite !dom_insert_L, dom_empty_L; set_solver.
Qed.

(** ** The dispatch loop *)


Lemma routine_of_Some self geo f :
  routine_of self geo = Some f <->
  getattr_default self ("download_" +:+ geo) PNone = PFunction f.
Proof.
  unfold routine_of.
  destruct (getattr_default _ _ _); split; try done; by intros [= ->].
Qed.


Lemma routines_cons self geo geos f :
  routine_of self geo = Some f ->
  routines self (geo :: geos) = (geo, f) :: routines self geos.
Proof. intros Hf. unfold routines. simpl. by rewrite Hf. Qed.

(** The loop over geographies whose routines are there and raise nothing
    calls each in turn and goes on with the rest. *)
Lemma download_loop_prefix self pre rest st :
  Forall (fun geo => exists f, routine_of self geo = Some f
                               /\ returns_normally f self) pre ->
  exists w,
    download_loop self (map PStr (pre ++ rest)%list) st
    = download_loop self (map PStr rest)
        {| world := w;
           invoked := (invoked st ++ routines self pre)%list |}.
Proof.
  intros Hpre. revert st.
  induction Hpre as [| geo pre (f & Hf & Hret) _ IH]; intros st.
  - exists (world st). simpl. rewrite app_nil_r. by destruct st.
  - cbn [app map download_loop format_].
    pose proof Hf as Hdl. apply routine_of_Some in Hdl. rewrite Hdl.
    cbn [truthy callable negb orb]. unfold bind at 1. unfold invoke.
    specialize (Hret (world st)).
    destruct (call f self (world st)) as [w r]; simpl in Hret; subst r.
    destruct (IH {| world := w;
                    invoked := (invoked st ++ [(geo, f)])%list |})
      as (w' & ->).
    exists w'. cbn [invoked].
    by rewrite (routines_cons _ _ _ _ Hf), <- app_assoc.
Qed.


Lemma download_everything_loop self geos st :
  declares self geos ->
  download_everything self st = download_loop self (map PStr geos) st.
Proof.
  intros (v & Hget & Hiter).
  unfold download_everything, bind, lift. by rewrite Hget, Hiter.
Qed.



(** ** Instances of BaseDownloader *)

(** Every other name is looked up on the class, as on a fresh instance. *)
Lemma constructed_getattr environ api_key source years data_dir force
    fs fs' self name :
  new_BaseDownloader environ api_key source years data_dir force fs
  = (fs', Returned self) ->
  name ∉ instance_attributes ->
  getattr self name = getattr fresh name.
Proof.
  intros Hnew Hname. apply init_returned in Hnew
    as (_ & self1 & Hset & _ & _ & ->).
  unfold instance_attributes in Hname.
  repeat (apply not_elem_of_cons in Hname as [? Hname]).
  rewrite getattr_with_dirs by done.
  rewrite (set_years_keeps _ _ _ name Hset) by done.
  by rewrite getattr_with_inputs.
Qed.







(** * Further properties of the code *)

(** ** The years a constructed instance holds *)


Lemma map_int_ints_only xs ys :
  map_int xs = Returned ys -> exists zs, ys = map PInt zs.
Proof.
  revert ys. induction xs as [| x xs IH]; intros ys; simpl.
  - intros [= <-]. by exists [].
  - destruct (py_int x) as [n | e]; simpl; [| done].
    destruct (map_int xs) as [ns | e]; simpl; [| done].
    intros [= <-]. destruct (IH ns eq_refl) as [zs ->].
    by exists (n :: zs).
Qed.


Lemma check_years_returned elems :
  check_years elems = Returned tt -> Forall supported_year elems.
Proof.
  induction elems as [| y elems IH]; cbn [check_years]; [done |].
  destruct (in_ints y YEAR_LIST) eqn:Hin; simpl; [| done].
  intros Hrest. apply Forall_cons_2; [by apply in_ints_supported | by apply IH].
Qed.

Lemma supported_ints zs :
  Forall supported_year (map PInt zs) ->
  Forall (fun z => 2009 <= z <= 2017)%Z zs.
Proof.
  induction zs as [| z zs IH]; simpl; intros Hall; [done |].
  apply Forall_cons in Hall as [(n & [= <-] & Hrange) Hrest].
  apply Forall_cons_2; [done | by apply IH].
Qed.

(** X1. Whatever form [years] had, a constructed [BaseDownloader] holds in
    [years_to_download] a list or a tuple of ints, every one of them a
    supported year between 2009 and 2017: bools, strings and unsupported
    years never get past [__init__]. *)
Theorem constructed_years_supported environ api_key source years data_dir
    force fs fs' self :
  new_BaseDownloader environ api_key source years data_dir force fs
  = (fs', Returned self) ->
  exists zs,
    (getattr self "years_to_download" = Returned (PList (map PInt zs))
     \/ getattr self "years_to_download" = Returned (PTuple (map PInt zs)))
    /\ Forall (fun z => 2009 <= z <= 2017)%Z zs.
Proof.
  intros Hnew. apply init_returned in Hnew
    as (_ & self1 & Hset & Hval & _ & ->).
  rewrite getattr_with_dirs by done.
  revert Hset Hval. unfold set_years_to_download, validate_years.
  destruct (eq_str years "all").
  { intros [= <-] _. rewrite getattr_setattr_eq.
    exists YEAR_LIST. split; [right; reflexivity |].
    unfold YEAR_LIST.
    repeat first [apply Forall_cons_2 | apply Forall_nil_2]; lia. }
  destruct (isinstance_int years) eqn:Hint.
  { intros [= <-]. rewrite getattr_setattr_eq.
    cbn [obind py_iter check_years].
    destruct (in_ints years YEAR_LIST) eqn:Hin; simpl; [| done].
    intros _. apply in_ints_supported in Hin as (n & Hn & Hrange).
    destruct years; try done; simpl in Hn.
    - destruct b; injection Hn as <-; simpl in Hrange; lia.
    - injection Hn as <-. exists [n0]. split; [left; reflexivity |].
      by apply Forall_cons_2. }
  destruct (isinstance_list years).
  { destruct (py_iter years) as [xs | e]; simpl; [| done].
    destruct (map_int xs) as [ys | e] eqn:Hmap; simpl; [| done].
    intros [= <-]. rewrite getattr_setattr_eq. simpl.
    apply map_int_ints_only in Hmap as [zs ->].
    destruct (check_years (map PInt zs)) as [[] | e] eqn:Hcheck; [| done].
    intros _. exists zs. split; [left; reflexivity |].
    by apply supported_ints, check_years_returned. }
  destruct (is_None years).
  { simpl. intros [= <-] _. rewrite getattr_setattr_eq.
    exists [2017%Z]. split; [right; reflexivity |].
    apply Forall_cons_2; [lia | apply Forall_nil_2]. }
  intros [= <-]. by rewrite years_unset_before.
Qed.


(** X3. [True] and [False] are ints to [isinstance], so a bool given as
    [years] takes the single-year branch, and the validation then rejects
    it with the configuration error naming 2009-2017. *)
Theorem bool_years_rejected environ api_key source b data_dir force fs :
  truthy (os.getenv environ "CENSUS_API_KEY" api_key) = true ->
  new_BaseDownloader environ api_key source (PBool b) data_dir force fs
  = (fs, Raised (NotImplementedError
           "Data only available for the years 2009-2017.")).
Proof.
  intros Hkey. unfold new_BaseDownloader. rewrite init_stages, Hkey. simpl.
  unfold validate_years. rewrite getattr_setattr_eq. by destruct b.
Qed.

(** X4. The range the error message names is the set the check accepts:
    [YEAR_LIST] runs from its first entry 2017, which is also its maximum
    and so the default year, down to its last entry 2009 without a gap, and
    a year passes [year in YEAR_LIST] exactly when it is a number between
    the two. *)
Theorem year_range_exact :
  item_first YEAR_LIST = Returned 2017%Z
  /\ item_last YEAR_LIST = Returned 2009%Z
  /\ py_max YEAR_LIST = Returned 2017%Z
  /\ forall y, in_ints y YEAR_LIST = true
               <-> exists n, year_value y = Some n /\ (2009 <= n <= 2017)%Z.
Proof.
  repeat split; try reflexivity; by apply in_ints_supported.
Qed.

(** ** The API key *)

(** X5. A [CENSUS_API_KEY] that is set but empty hides the [api_key]
    argument: [os.getenv] returns the empty string, not the default, and
    construction raises the key error whatever key was passed. *)
Theorem empty_environment_key_hides_argument environ api_key source years
    data_dir force fs :
  environ !! "CENSUS_API_KEY" = Some "" ->
  new_BaseDownloader environ api_key source years data_dir force fs
  = (fs, Raised (NotImplementedError
           "Census API key required. Pass it as the first argument.")).
Proof.
  intros Henv. unfold new_BaseDownloader. rewrite init_stages.
  unfold os.getenv. by rewrite Henv.
Qed.

(** ** What construction does to the file system *)

Lemma only_adds_refl ps fs : only_adds ps fs fs.
Proof. intros p. by left. Qed.

Lemma only_adds_trans ps fs fs1 fs2 :
  only_adds ps fs fs1 -> only_adds ps fs1 fs2 -> only_adds ps fs fs2.
Proof.
  intros H1 H2 p.
  destruct (H1 p) as [Heq1 | (Hin & Hnone & Hdir)];
    destruct (H2 p) as [Heq2 | (Hin2 & Hnone2 & Hdir2)].
  - left. congruence.
  - right. split; [done |]. split; [congruence | done].
  - right. split; [done |]. split; [done | congruence].
  - congruence.
Qed.

Lemma ensure_dir_only_adds ps p fs fs' r :
  p ∈ ps -> ensure_dir p fs = (fs', r) -> only_adds ps fs fs'.
Proof.
  intros Hin Hrun.
  apply ensure_dir_cases in Hrun
    as [(_ & -> & _) | [(Hnone & _ & -> & _) | (-> & _)]];
    try apply only_adds_refl.
  intros q. destruct (decide (p = q)) as [<- | Hne].
  - right. by rewrite lookup_insert_eq.
  - left. by rewrite lookup_insert_ne.
Qed.

Lemma make_dirs_only_adds dir fs fs' r :
  make_dirs dir fs = (fs', r) ->
  only_adds
    [dir; pathlib.joinpath dir "raw"; pathlib.joinpath dir "processed"]
    fs fs'.
Proof.
  unfold make_dirs, bind.
  destruct (ensure_dir dir fs) as [fs1 r1] eqn:H1.
  apply (ensure_dir_only_adds
           [dir; pathlib.joinpath dir "raw"; pathlib.joinpath dir "processed"])
    in H1; [| set_solver].
  destruct r1 as [[] | e1]; [| by intros [= <- <-]].
  destruct (ensure_dir (pathlib.joinpath dir "raw") fs1) as [fs2 r2] eqn:H2.
  apply (ensure_dir_only_adds
           [dir; pathlib.joinpath dir "raw"; pathlib.joinpath dir "processed"])
    in H2; [| set_solver].
  destruct r2 as [[] | e2].
  - intros H3.
    apply (ensure_dir_only_adds
             [dir; pathlib.joinpath dir "raw";
              pathlib.joinpath dir "processed"])
      in H3; [| set_solver].
    eauto using only_adds_trans.
  - intros [= <- <-]. eauto using only_adds_trans.
Qed.

(** X6. Whatever its outcome, construction leaves every existing entry of
    the file system as it was and adds nothing but directories at
    [data_dir], [data_dir/raw] and [data_dir/processed]: it never removes,
    replaces or writes anything else. *)
Theorem construction_only_adds_its_directories environ api_key source years
    data_dir force fs :
  only_adds (run_dirs data_dir) fs
    (new_BaseDownloader environ api_key source years data_dir force fs).1.
Proof.
  unfold new_BaseDownloader. rewrite init_stages.
  destruct (negb _); [apply only_adds_refl |].
  destruct (set_years_to_download _ _) as [self1 | e];
    [| apply only_adds_refl].
  destruct (validate_years self1) as [[] | e]; [| apply only_adds_refl].
  destruct (make_dirs (base_dir data_dir) fs) as [fs' r] eqn:Hdirs.
  apply make_dirs_only_adds in Hdirs. by destruct r.
Qed.






(** What [__init__] does once the key is there and the years are valid. *)
Lemma init_valid environ api_key source years data_dir force fs elems :
  truthy (os.getenv environ "CENSUS_API_KEY" api_key) = true ->
  resolved_years fresh years = Returned elems ->
  Forall supported_year elems ->
  exists self1,
    new_BaseDownloader environ api_key source years data_dir force fs
    = match make_dirs (base_dir data_dir) fs with
      | (fs', Returned _) =>
          (fs', Returned (with_dirs self1 (base_dir data_dir)))
      | (fs', Raised e) => (fs', Raised e)
      end.
Proof.
  intros Hkey Hres Hgood.
  rewrite <- (resolved_years_with_inputs environ api_key source force)
    in Hres.
  unfold resolved_years in Hres.
  unfold new_BaseDownloader. rewrite init_stages, Hkey; simpl.
  destruct (set_years_to_download _ years) as [self1 | e]; [| done].
  exists self1. simpl in Hres. unfold validate_years.
  destruct (getattr self1 "years_to_download") as [ytd | e]; [| done].
  simpl in Hres |- *. rewrite Hres. simpl.
  by rewrite (check_years_supported _ Hgood).
Qed.

Lemma ensure_dir_missing_parent p fs :
  fs !! p = None -> fs !! pathlib.parent p = None ->
  ensure_dir p fs = (fs, Raised (FileNotFoundError p)).
Proof.
  intros Hp Hparent.
  unfold ensure_dir, bind, pathlib.exists_, pathlib.mkdir.
  rewrite Hp. simpl. by rewrite Hp, Hparent.
Qed.

Lemma ensure_dir_creates p fs :
  fs !! p = None -> fs !! pathlib.parent p = Some pathlib.Dir ->
  ensure_dir p fs = (<[p := pathlib.Dir]> fs, Returned tt).
Proof.
  intros Hp Hparent.
  unfold ensure_dir, bind, pathlib.exists_, pathlib.mkdir.
  rewrite Hp. simpl. by rewrite Hp, Hparent.
Qed.

(** X8. [mkdir] is called without [parents=True]: with a valid key and
    valid years, a [data_dir] that does not exist and whose parent does not
    exist either makes construction raise [FileNotFoundError] for
    [data_dir], and nothing is created. *)
Theorem missing_parent_not_created environ api_key source years data_dir
    force fs elems :
  truthy (os.getenv environ "CENSUS_API_KEY" api_key) = true ->
  resolved_years fresh years = Returned elems ->
  Forall supported_year elems ->
  fs !! base_dir data_dir = None ->
  fs !! pathlib.parent (base_dir data_dir) = None ->
  new_BaseDownloader environ api_key source years data_dir force fs
  = (fs, Raised (FileNotFoundError (base_dir data_dir))).
Proof.
  intros Hkey Hres Hgood Hdir Hparent.
  destruct (init_valid environ api_key source years data_dir force fs elems
              Hkey Hres Hgood) as (self1 & ->).
  unfold make_dirs, bind.
  by rewrite (ensure_dir_missing_parent _ _ Hdir Hparent).
Qed.

Lemma parent_joinpath dir name :
  pathlib.parent (pathlib.joinpath dir name) = dir.
Proof. apply removelast_last. Qed.

(** X9. In a fresh location, where the parent of [data_dir] is a
    directory and none of the three paths exists, construction with a valid
    key and valid years returns an instance and leaves the file system with
    exactly the three directories added. *)
Theorem fresh_location_creates_three_directories environ api_key source
    years data_dir force fs elems :
  truthy (os.getenv environ "CENSUS_API_KEY" api_key) = true ->
  resolved_years fresh years = Returned elems ->
  Forall supported_year elems ->
  fs !! pathlib.parent (base_dir data_dir) = Some pathlib.Dir ->
  Forall (fun p => fs !! p = None) (run_dirs data_dir) ->
  exists self,
    new_BaseDownloader environ api_key source years data_dir force fs
    = (<[pathlib.joinpath (base_dir data_dir) "processed" := pathlib.Dir]>
         (<[pathlib.joinpath (base_dir data_dir) "raw" := pathlib.Dir]>
            (<[base_dir data_dir := pathlib.Dir]> fs)),
       Returned self).
Proof.
  intros Hkey Hres Hgood Hparent Hnone.
  unfold run_dirs in Hnone.
  apply Forall_cons in Hnone as [Hdir Hnone].
  apply Forall_cons in Hnone as [Hraw Hnone].
  apply Forall_cons in Hnone as [Hproc _].
  destruct (init_valid environ api_key source years data_dir force fs elems
              Hkey Hres Hgood) as (self1 & ->).
  pose proof (joinpath_ne (base_dir data_dir) "raw") as Nraw.
  pose proof (joinpath_ne (base_dir data_dir) "processed") as Nproc.
  assert (Nrp : pathlib.joinpath (base_dir data_dir) "raw"
                <> pathlib.joinpath (base_dir data_dir) "processed").
  { intros Heq. by apply joinpath_inj in Heq. }
  unfold make_dirs, bind.
  rewrite (ensure_dir_creates _ _ Hdir Hparent).
  rewrite ensure_dir_creates.
  2: { by rewrite lookup_insert_ne. }
  2: { by rewrite parent_joinpath, lookup_insert_eq. }
  rewrite ensure_dir_creates.
  2: { by rewrite !lookup_insert_ne. }
  2: { rewrite parent_joinpath, lookup_insert_ne by done.
       by rewrite lookup_insert_eq. }
  by eexists.
Qed.

(** ** What construction does not look at *)

(** The years stage, whatever was stored before it: it raises what
    resolving and checking the years raises. *)
Lemma years_stage environ api_key source force years :
  match set_years_to_download
          (with_inputs environ fresh api_key source force) years with
  | Returned self1 => validate_years self1
  | Raised e => Raised e
  end
  = obind (resolved_years fresh years) check_years.
Proof.
  rewrite <- (resolved_years_with_inputs environ api_key source force).
  unfold resolved_years, validate_years.
  destruct (set_years_to_download _ _) as [self1 | e]; simpl; [| done].
  by destruct (getattr self1 "years_to_download").
Qed.

(** X10. [source] and [force] are stored and never examined: changing
    them changes neither the directories construction makes nor whether it
    raises, nor the error it raises. *)
Theorem source_and_force_not_validated environ api_key source force
    source' force' years data_dir fs :
  (new_BaseDownloader environ api_key source years data_dir force fs).1
  = (new_BaseDownloader environ api_key source' years data_dir force' fs).1
  /\ forall e,
       (new_BaseDownloader environ api_key source years data_dir force fs).2
       = Raised e
       <-> (new_BaseDownloader environ api_key source' years data_dir force'
              fs).2
           = Raised e.
Proof.
  unfold new_BaseDownloader. rewrite !init_stages.
  destruct (negb _); [done |].
  pose proof (years_stage environ api_key source force years) as Ha.
  pose proof (years_stage environ api_key source' force' years) as Hb.
  destruct (set_years_to_download
              (with_inputs environ fresh api_key source force) years)
    as [sa | ea];
  destruct (set_years_to_download
              (with_inputs environ fresh api_key source' force') years)
    as [sb | eb];
  try destruct (validate_years sa) as [[] | va];
  try destruct (validate_years sb) as [[] | vb];
  rewrite <- Ha in Hb; try done; try (injection Hb as ->; done).
  destruct (make_dirs (base_dir data_dir) fs) as [fs1 [[] | e1]]; by simpl.
Qed.

(** ** Constructed instances *)

(** X11. A constructed instance is a [BaseDownloader] carrying exactly the
    seven attributes [__init__] assigns, and the API key it carries is
    truthy. *)
Theorem constructed_instance_attributes environ api_key source years
    data_dir force fs fs' self :
  new_BaseDownloader environ api_key source years data_dir force fs
  = (fs', Returned self) ->
  ob_class self = BaseDownloader
  /\ dom (ob_dict self) = list_to_set instance_attributes
  /\ exists key, getattr self "CENSUS_API_KEY" = Returned key
                 /\ truthy key = true.
Proof.
  intros Hnew. apply init_returned in Hnew
    as (Hkey & self1 & Hset & Hval & _ & ->).
  assert (Hself1 : exists v,
    self1 = setattr (with_inputs environ fresh api_key source force)
              "years_to_download" v).
  { revert Hset Hval. unfold set_years_to_download.
    destruct (eq_str years "all"); [intros [= <-]; by eexists |].
    destruct (isinstance_int years); [intros [= <-]; by eexists |].
    destruct (isinstance_list years).
    { destruct (py_iter years) as [xs | e]; simpl; [| done].
      destruct (map_int xs) as [ys | e]; simpl; [| done].
      intros [= <-]. by eexists. }
    destruct (is_None years); [simpl; intros [= <-]; by eexists |].
    intros [= <-]. unfold validate_years. by rewrite years_unset_before. }
  destruct Hself1 as [v ->].
  split; [done |]. split.
  - unfold with_dirs, with_inputs, setattr, fresh, instance_attributes.
    simpl. rewrite !dom_insert_L, dom_empty_L. set_solver.
  - exists (os.getenv environ "CENSUS_API_KEY" api_key). split; [| done].
    rewrite getattr_with_dirs by done. unfold with_inputs.
    rewrite !getattr_setattr_ne by done. apply getattr_setattr_eq.
Qed.

(** ** Runs of download_everything *)


(** X13. An exception raised by a geography's routine is not caught: it
    comes out of [download_everything] as it is, after the calls up to and
    including that routine, and the geographies after it are not
    attempted. *)
Theorem routine_exception_propagates self geos pre geo post f e st :
  declares self geos ->
  geos = (pre ++ geo :: post)%list ->
  Forall (fun g => exists f, routine_of self g = Some f
                             /\ returns_normally f self) pre ->
  routine_of self geo = Some f ->
  (forall w, (call f self w).2 = Some e) ->
  exists st',
    download_everything self st = (st', Raised e)
    /\ invoked st' = (invoked st ++ routines self pre ++ [(geo, f)])%list.
Proof.
  intros Hdecl -> Hpre Hf Hraise.
  rewrite (download_everything_loop _ _ _ Hdecl).
  destruct (download_loop_prefix self pre (geo :: post) st Hpre)
    as (w & ->).
  cbn [map download_loop format_].
  pose proof Hf as Hdl. apply routine_of_Some in Hdl. rewrite Hdl.
  cbn [truthy callable negb orb]. unfold bind at 1. unfold invoke.
  cbn [world invoked].
  specialize (Hraise w).
  destruct (call f self w) as [w' r]; simpl in Hraise; subst r.
  eexists. split; [done |]. cbn [invoked]. by rewrite <- app_assoc.
Qed.

(** ** The documentation URL, further *)

(** X14. [BaseDownloader] defines no [RAW_TABLE_NAME]: on an instance of
    the base class itself the property raises [AttributeError], so the URL
    is there for table configs only. *)
Theorem censusreporter_url_needs_table_name (S : Type) (st : S) environ
    api_key source years data_dir force fs fs' self :
  new_BaseDownloader environ api_key source years data_dir force fs
  = (fs', Returned self) ->
  censusreporter_url self st = (st, Raised (AttributeError "RAW_TABLE_NAME")).
Proof.
  intros Hnew. unfold censusreporter_url, bind, lift.
  rewrite (constructed_getattr _ _ _ _ _ _ _ _ _ "RAW_TABLE_NAME" Hnew).
  - done.
  - unfold instance_attributes.
    repeat (apply not_elem_of_cons; split; [done |]).
    apply not_elem_of_nil.
Qed.

Lemma append_inj_l (s a b : string) : s +:+ a = s +:+ b -> a = b.
Proof.
  induction s as [| c s IH]; simpl; [done |]. intros [= H]. by apply IH.
Qed.

Lemma append_inj_r (a b t : string) :
  String.length a = String.length b -> a +:+ t = b +:+ t -> a = b.
Proof.
  revert b. induction a as [| c a IH]; intros [| d b]; simpl; try done.
  intros [= Hlen] [= -> Heq]. f_equal. by apply IH.
Qed.

Lemma length_append (a b : string) :
  String.length (a +:+ b) = (String.length a + String.length b)%nat.
Proof. induction a as [| c a IH]; simpl; [done |]. by rewrite IH. Qed.

(** X15. The URL determines the table: two configs whose table names are
    strings get the same URL only when the names are the same. *)
Theorem censusreporter_url_injective (S : Type) (st : S) self1 self2
    name1 name2 :
  getattr self1 "RAW_TABLE_NAME" = Returned (PStr name1) ->
  getattr self2 "RAW_TABLE_NAME" = Returned (PStr name2) ->
  censusreporter_url self1 st = censusreporter_url self2 st ->
  name1 = name2.
Proof.
  intros H1 H2. unfold censusreporter_url, bind, lift, ret.
  rewrite H1, H2. cbn [format_]. intros [= Heq].
  apply append_inj_l in Heq.
  apply append_inj_r in Heq; [done |].
  apply (f_equal String.length) in Heq. rewrite !length_append in Heq.
  simpl in Heq. lia.
Qed.

(** ** The class tables *)

Lemma class_getattr_base_downloader name :
  class_getattr BaseDownloader name = class_dict BaseDownloader !! name.
Proof.
  unfold BaseDownloader. cbn [class_getattr class_dict].
  by destruct (_ !! name).
Qed.

(** X16. [GEO_LIST] leaves out no routine: every method of
    [BaseDownloader] wrapped by [@decorators.downloader] is
    [download_<geo>] for a geography of [GEO_LIST], so
    [download_everything] reaches it; and no two of these methods return
    the same downloader class. *)
Theorem every_geography_method_is_declared name r :
  class_getattr BaseDownloader name = Some (PFunction (Decorated r)) ->
  (exists geo, geo ∈ GEO_LIST /\ name = "download_" +:+ geo)
  /\ forall name',
       class_getattr BaseDownloader name' = Some (PFunction (Decorated r)) ->
       name' = name.
Proof.
  rewrite class_getattr_base_downloader.
  unfold BaseDownloader, class_dict, class_body. cbn [foldl fst snd].
  intros H.
  repeat (apply lookup_insert_Some in H as [[<- Hv] | [_ H]];
          [first [discriminate Hv | injection Hv as <-] |]);
    try (by rewrite lookup_empty in H).
  all: split;
    [ eexists; split; [| reflexivity]; unfold GEO_LIST; set_solver
    | intros name'; rewrite class_getattr_base_downloader;
      unfold BaseDownloader, class_dict, class_body; cbn [foldl fst snd];
      intros H';
      repeat (apply lookup_insert_Some in H' as [[<- Hv] | [_ H']];
              [first [discriminate Hv | reflexivity] |]);
      by rewrite lookup_empty in H' ].
Qed.

(** X17. The six mobility configs are well formed, whatever
    [BaseTableConfig] defines: their processed table names are all
    different; each resolves a processed name, a universe, a raw table
    name and a crosswalk from its own body or its parent's; and in every
    crosswalk the raw codes are all different, the field names are all
    different, and the first code, 001E, is the universe. *)
Theorem mobility_configs_well_formed :
  let configs :=
    [ MobilityDownloader; MobilityBySexDownloader; MobilityWhiteDownloader;
      MobilityBlackDownloader; MobilityAsianDownloader;
      MobilityLatinoDownloader ] in
  let names :=
    [ "mobility"; "mobilitybysex"; "mobilitywhite"; "mobilityblack";
      "mobilityasian"; "mobilitylatino" ] in
  map (fun c => class_getattr c "PROCESSED_TABLE_NAME") configs
  = map (fun n => Some (PStr n)) names
  /\ NoDup names
  /\ Forall (fun c =>
       exists universe table items,
         class_getattr c "UNIVERSE" = Some (PStr universe)
         /\ class_getattr c "RAW_TABLE_NAME" = Some (PStr table)
         /\ class_getattr c "RAW_FIELD_CROSSWALK" = Some (POrderedDict items)
         /\ NoDup (map fst items)
         /\ NoDup (map snd items)
         /\ head items = Some ("001E", "universe")) configs.
Proof.
  intros configs names.
  split; [vm_compute; reflexivity |].
  split; [apply (bool_decide_unpack _); vm_compute; reflexivity |].
  repeat first [apply Forall_cons_2 | apply Forall_nil_2];
    do 3 eexists; (split; [reflexivity |]);
    (split; [reflexivity |]);
    (split; [reflexivity |]);
    (split; [apply (bool_decide_unpack _); vm_compute; reflexivity |]);
    (split; [apply (bool_decide_unpack _); vm_compute; reflexivity |]);
    reflexivity.
Qed.

End Program.

(** * The statements on concrete inputs *)

Arguments world {World} _.
Arguments invoked {World} _.

(** [BaseDownloader("from-arg", "acs5", [2012, 2010], "out", False)] with
    [CENSUS_API_KEY=from-env], in a directory that has no [out] yet. *)
Lemma example_construction :
  new_BaseDownloader example_int_of_str example_Path example_THIS_DIR
    example_environ (PStr "from-arg") (PStr "acs5")
    (PList [PInt 2012; PInt 2010]) (PStr "out") (PBool false) example_fs
  = (example_fs_after, Returned (example_instance example_THIS_DIR)).
Proof.
  vm_cast_no_check
    (eq_refl (example_fs_after,
              Returned (A := object) (example_instance example_THIS_DIR))).
Qed.


Lemma year_validation_example :
  truthy (os.getenv ∅ "CENSUS_API_KEY" (PStr "key")) = true
  /\ resolved_years example_int_of_str (fresh example_THIS_DIR)
       (PList [PInt 2017; PStr "2008"])
     = Returned [PInt 2017; PInt 2008]
  /\ new_BaseDownloader example_int_of_str example_Path example_THIS_DIR
       ∅ (PStr "key") (PStr "acs5") (PList [PInt 2017; PStr "2008"])
       (PStr "out") (PBool false) example_fs
     = (example_fs,
        Raised (NotImplementedError
          "Data only available for the years 2009-2017.")).
Proof.
  assert (Hkey : truthy (os.getenv ∅ "CENSUS_API_KEY" (PStr "key")) = true)
    by reflexivity.
  assert (Hres : resolved_years example_int_of_str (fresh example_THIS_DIR)
                   (PList [PInt 2017; PStr "2008"])
                 = Returned [PInt 2017; PInt 2008])
    by (vm_compute; reflexivity).
  split; [exact Hkey |]. split; [exact Hres |].
  apply (year_validation example_int_of_str example_Path example_THIS_DIR
           ∅ (PStr "key") (PStr "acs5") (PList [PInt 2017; PStr "2008"])
           (PStr "out") (PBool false) example_fs
           [PInt 2017; PInt 2008] Hkey Hres).
  apply Exists_cons_tl, Exists_cons_hd.
  intros (n & Hn & Hrange). injection Hn as <-. lia.
Defined.

Lemma api_key_environment_first_example :
  new_BaseDownloader example_int_of_str example_Path example_THIS_DIR
    example_environ (PStr "from-arg") (PStr "acs5")
    (PList [PInt 2012; PInt 2010]) (PStr "out") (PBool false) example_fs
  = (example_fs_after, Returned (example_instance example_THIS_DIR))
  /\ example_environ !! "CENSUS_API_KEY" = Some "from-env"
  /\ getattr (example_instance example_THIS_DIR) "CENSUS_API_KEY"
     = Returned (PStr "from-env").
Proof.
  pose proof example_construction as Hrun.
  assert (Henv : example_environ !! "CENSUS_API_KEY" = Some "from-env")
    by (vm_compute; reflexivity).
  split; [exact Hrun |]. split; [exact Henv |].
  apply api_key_environment_first in Hrun as [Hset _].
  exact (Hset "from-env" Henv).
Defined.

(** The claim C4 as the spec states it fails here: an explicit key
    "from-arg" is passed, and the key the instance uses is not that one but
    the value of the environment variable. *)
Lemma explicit_api_key_not_used :
  new_BaseDownloader example_int_of_str example_Path example_THIS_DIR
    example_environ (PStr "from-arg") (PStr "acs5")
    (PList [PInt 2012; PInt 2010]) (PStr "out") (PBool false) example_fs
  = (example_fs_after, Returned (example_instance example_THIS_DIR))
  /\ getattr (example_instance example_THIS_DIR) "CENSUS_API_KEY"
     <> Returned (PStr "from-arg").
Proof.
  split; [exact example_construction |].
  assert (Hkey : getattr (example_instance example_THIS_DIR) "CENSUS_API_KEY"
                 = Returned (PStr "from-env"))
    by (vm_compute; reflexivity).
  rewrite Hkey. intros [=].
Qed.

Lemma missing_api_key_fails_first_example :
  (∅ : gmap string string) !! "CENSUS_API_KEY" = None
  /\ new_BaseDownloader example_int_of_str example_Path example_THIS_DIR
       ∅ PNone (PStr "acs5") (PStr "every year") PNone (PBool false)
       example_fs
     = (example_fs,
        Raised (NotImplementedError
          "Census API key required. Pass it as the first argument.")).
Proof.
  assert (Henv : (∅ : gmap string string) !! "CENSUS_API_KEY" = None)
    by reflexivity.
  split; [exact Henv |].
  apply missing_api_key_fails_first. left. exact Henv.
Defined.

Lemma directory_creation_idempotent_example :
  new_BaseDownloader example_int_of_str example_Path example_THIS_DIR
    example_environ (PStr "from-arg") (PStr "acs5")
    (PList [PInt 2012; PInt 2010]) (PStr "out") (PBool false) example_fs
  = (example_fs_after, Returned (example_instance example_THIS_DIR))
  /\ Forall (fun p => pathlib.exists_ p example_fs_after
                      = (example_fs_after, Returned true))
       [ ["out"]; ["out"; "raw"]; ["out"; "processed"] ]
  /\ new_BaseDownloader example_int_of_str example_Path example_THIS_DIR
       example_environ (PStr "from-arg") (PStr "acs5")
       (PList [PInt 2012; PInt 2010]) (PStr "out") (PBool false)
       example_fs_after
     = (example_fs_after, Returned (example_instance example_THIS_DIR)).
Proof.
  pose proof example_construction as Hrun.
  split; [exact Hrun |].
  apply directory_creation_idempotent in Hrun as (_ & Hdirs & Hagain).
  split; [| exact Hagain].
  eapply Forall_impl; [exact Hdirs |].
  intros p [Hp _]. exact Hp.
Defined.

(** The claim C7 as the spec states it fails here: [out/raw] is a regular
    file, [exists] finds it, no [mkdir] is attempted, construction returns,
    and [out/raw] is still a regular file, not a directory. *)
Lemma raw_subdirectory_not_ensured :
  new_BaseDownloader example_int_of_str example_Path example_THIS_DIR
    example_environ (PStr "from-arg") (PStr "acs5")
    (PList [PInt 2012; PInt 2010]) (PStr "out") (PBool false)
    example_fs_raw_file
  = (<[ ["out"; "processed"] := pathlib.Dir ]> example_fs_raw_file,
     Returned (example_instance example_THIS_DIR))
  /\ (<[ ["out"; "processed"] := pathlib.Dir ]> example_fs_raw_file)
       !! ["out"; "raw"]
     = Some pathlib.File
  /\ (<[ ["out"; "processed"] := pathlib.Dir ]> example_fs_raw_file)
       !! ["out"; "raw"]
     <> Some pathlib.Dir.
Proof.
  assert (Hraw : (<[ ["out"; "processed"] := pathlib.Dir ]> example_fs_raw_file)
                   !! ["out"; "raw"]
                 = Some pathlib.File)
    by (vm_compute; reflexivity).
  split; [| split].
  - vm_cast_no_check
      (eq_refl (<[ ["out"; "processed"] := pathlib.Dir ]> example_fs_raw_file,
                Returned (A := object) (example_instance example_THIS_DIR))).
  - exact Hraw.
  - rewrite Hraw. discriminate.
Qed.

(** The calls the operating system refuses: a [data_dir] whose name is too
    long makes [exists] raise, and one with a NUL byte, which [exists]
    reports as not there, makes [mkdir] raise [ValueError]; neither leaves
    a directory behind. *)
Lemma refused_calls_example :
  new_BaseDownloader example_int_of_str example_Path example_THIS_DIR
    ∅ (PStr "key") (PStr "acs5") PNone (PStr "out") (PBool false)
    (<[ ["out"] := pathlib.StatRefused (pathlib.Errno "ENAMETOOLONG") ]>
       example_fs)
  = (<[ ["out"] := pathlib.StatRefused (pathlib.Errno "ENAMETOOLONG") ]>
       example_fs,
     Raised (OSError "ENAMETOOLONG"))
  /\ new_BaseDownloader example_int_of_str example_Path example_THIS_DIR
       ∅ (PStr "key") (PStr "acs5") PNone (PStr "out") (PBool false)
       (<[ ["out"] := pathlib.MkdirRefused pathlib.EmbeddedNul ]> example_fs)
     = (<[ ["out"] := pathlib.MkdirRefused pathlib.EmbeddedNul ]> example_fs,
        Raised ValueError).
Proof. split; vm_compute; reflexivity. Qed.

Lemma censusreporter_url_template_example :
  let self :=
    {| ob_class := MobilityBlackDownloader example_BaseTableConfig;
       ob_dict := ∅ |} in
  getattr self "RAW_TABLE_NAME" = Returned (PStr "B07004B")
  /\ censusreporter_url example_repr self tt
     = (tt, Returned (PStr "https://censusreporter.org/tables/B07004B/")).
Proof.
  intros self.
  assert (Hname : getattr self "RAW_TABLE_NAME" = Returned (PStr "B07004B"))
    by (vm_compute; reflexivity).
  split; [exact Hname |].
  exact (censusreporter_url_template example_repr unit tt self "B07004B"
           Hname).
Defined.

Lemma unrecognised_years_attribute_error_example :
  new_BaseDownloader example_int_of_str example_Path example_THIS_DIR
    ∅ (PStr "key") (PStr "acs5") (PStr "2017") (PStr "out") (PBool false)
    example_fs
  = (example_fs, Raised (AttributeError "years_to_download"))
  /\ new_BaseDownloader example_int_of_str example_Path example_THIS_DIR
       ∅ (PStr "key") (PStr "acs5") (PTuple [PInt 2017]) (PStr "out")
       (PBool false) example_fs
     = (example_fs, Raised (AttributeError "years_to_download")).
Proof.
  split; apply unrecognised_years_attribute_error;
    first [reflexivity | discriminate].
Defined.



(** ** Further properties on concrete inputs *)

Lemma constructed_years_supported_example :
  new_BaseDownloader example_int_of_str example_Path example_THIS_DIR
    example_environ (PStr "from-arg") (PStr "acs5")
    (PList [PInt 2012; PInt 2010]) (PStr "out") (PBool false) example_fs
  = (example_fs_after, Returned (example_instance example_THIS_DIR))
  /\ exists zs,
       (getattr (example_instance example_THIS_DIR) "years_to_download"
        = Returned (PList (map PInt zs))
        \/ getattr (example_instance example_THIS_DIR) "years_to_download"
           = Returned (PTuple (map PInt zs)))
       /\ Forall (fun z => 2009 <= z <= 2017)%Z zs.
Proof.
  pose proof example_construction as Hrun.
  split; [exact Hrun |].
  exact (constructed_years_supported _ _ _ _ _ _ _ _ _ _ _ _ Hrun).
Defined.


Lemma bool_years_rejected_example :
  truthy (os.getenv ∅ "CENSUS_API_KEY" (PStr "key")) = true
  /\ new_BaseDownloader example_int_of_str example_Path example_THIS_DIR
       ∅ (PStr "key") (PStr "acs5") (PBool true) (PStr "out") (PBool false)
       example_fs
     = (example_fs,
        Raised (NotImplementedError
          "Data only available for the years 2009-2017.")).
Proof.
  assert (Hkey : truthy (os.getenv ∅ "CENSUS_API_KEY" (PStr "key")) = true)
    by reflexivity.
  split; [exact Hkey |].
  exact (bool_years_rejected example_int_of_str example_Path
           example_THIS_DIR ∅ (PStr "key") (PStr "acs5") true (PStr "out")
           (PBool false) example_fs Hkey).
Defined.

Lemma empty_environment_key_hides_argument_example :
  ({[ "CENSUS_API_KEY" := "" ]} : gmap string string) !! "CENSUS_API_KEY"
  = Some ""
  /\ new_BaseDownloader example_int_of_str example_Path example_THIS_DIR
       {[ "CENSUS_API_KEY" := "" ]} (PStr "from-arg") (PStr "acs5") PNone
       (PStr "out") (PBool false) example_fs
     = (example_fs,
        Raised (NotImplementedError
          "Census API key required. Pass it as the first argument.")).
Proof.
  assert (Henv : ({[ "CENSUS_API_KEY" := "" ]} : gmap string string)
                   !! "CENSUS_API_KEY" = Some "")
    by (vm_compute; reflexivity).
  split; [exact Henv |].
  exact (empty_environment_key_hides_argument example_int_of_str
           example_Path example_THIS_DIR _ (PStr "from-arg") (PStr "acs5")
           PNone (PStr "out") (PBool false) example_fs Henv).
Defined.


Lemma missing_parent_not_created_example :
  example_fs !! pathlib.joinpath example_THIS_DIR "data" = None
  /\ example_fs !! example_THIS_DIR = None
  /\ new_BaseDownloader example_int_of_str example_Path example_THIS_DIR
       ∅ (PStr "key") (PStr "acs5") PNone PNone (PBool false) example_fs
     = (example_fs,
        Raised (FileNotFoundError (pathlib.joinpath example_THIS_DIR "data"))).
Proof.
  assert (Hdir : example_fs !! pathlib.joinpath example_THIS_DIR "data"
                 = None) by (vm_compute; reflexivity).
  assert (Hparent : example_fs !! example_THIS_DIR = None)
    by (vm_compute; reflexivity).
  split; [exact Hdir |]. split; [exact Hparent |].
  apply (missing_parent_not_created example_int_of_str example_Path
           example_THIS_DIR ∅ (PStr "key") (PStr "acs5") PNone PNone
           (PBool false) example_fs [PInt 2017]).
  - reflexivity.
  - vm_compute. reflexivity.
  - apply Forall_cons_2; [| apply Forall_nil_2].
    exists 2017%Z. split; [reflexivity | lia].
  - exact Hdir.
  - exact Hparent.
Defined.

Lemma fresh_location_creates_three_directories_example :
  example_fs !! ([] : path) = Some pathlib.Dir
  /\ exists self,
       new_BaseDownloader example_int_of_str example_Path example_THIS_DIR
         ∅ (PStr "key") (PStr "acs5") PNone (PStr "out") (PBool false)
         example_fs
       = (example_fs_after, Returned self).
Proof.
  assert (Hroot : example_fs !! ([] : path) = Some pathlib.Dir)
    by (vm_compute; reflexivity).
  split; [exact Hroot |].
  apply (fresh_location_creates_three_directories example_int_of_str
           example_Path example_THIS_DIR ∅ (PStr "key") (PStr "acs5") PNone
           (PStr "out") (PBool false) example_fs [PInt 2017]).
  - reflexivity.
  - vm_compute. reflexivity.
  - apply Forall_cons_2; [| apply Forall_nil_2].
    exists 2017%Z. split; [reflexivity | lia].
  - exact Hroot.
  - repeat first [apply Forall_cons_2 | apply Forall_nil_2];
      vm_compute; reflexivity.
Defined.

Lemma constructed_instance_attributes_example :
  new_BaseDownloader example_int_of_str example_Path example_THIS_DIR
    example_environ (PStr "from-arg") (PStr "acs5")
    (PList [PInt 2012; PInt 2010]) (PStr "out") (PBool false) example_fs
  = (example_fs_after, Returned (example_instance example_THIS_DIR))
  /\ dom (ob_dict (example_instance example_THIS_DIR))
     = list_to_set instance_attributes.
Proof.
  pose proof example_construction as Hrun.
  split; [exact Hrun |].
  exact (proj1 (proj2
    (constructed_instance_attributes _ _ _ _ _ _ _ _ _ _ _ _ Hrun))).
Defined.


Lemma routine_exception_propagates_example :
  let self := example_instance example_THIS_DIR in
  let st := {| world := tt; invoked := [] |} in
  routine_of self "counties" = Some (Decorated CountiesRawDownloader)
  /\ exists st',
       download_everything example_repr unit example_failing_call self st
       = (st', Raised (ExternalError "HTTP 500"))
       /\ map fst (invoked st')
          = ["nationwide"; "states"; "congressional_districts"; "counties"].
Proof.
  intros self st.
  assert (Hdecl : declares self GEO_LIST).
  { exists (PTuple (map PStr GEO_LIST)). split; vm_compute; reflexivity. }
  assert (Hcounties : routine_of self "counties"
                      = Some (Decorated CountiesRawDownloader))
    by (vm_compute; reflexivity).
  split; [exact Hcounties |].
  destruct (routine_exception_propagates example_repr unit
              example_failing_call self GEO_LIST
              ["nationwide"; "states"; "congressional_districts"]
              "counties"
              ["places"; "urban_areas"; "msas"; "csas"; "pumas";
               "aiannh_homelands"; "zctas";
               "state_legislative_upper_districts";
               "state_legislative_lower_districts"; "tracts"]
              (Decorated CountiesRawDownloader)
              (ExternalError "HTTP 500") st Hdecl eq_refl)
    as (st' & Hrun & Hinv).
  - repeat first [apply Forall_cons_2 | apply Forall_nil_2];
      eexists; (split; [vm_compute; reflexivity |]); intros w; reflexivity.
  - exact Hcounties.
  - intros w. reflexivity.
  - exists st'. split; [exact Hrun |].
    rewrite Hinv. vm_compute. reflexivity.
Defined.

Lemma censusreporter_url_needs_table_name_example :
  new_BaseDownloader example_int_of_str example_Path example_THIS_DIR
    example_environ (PStr "from-arg") (PStr "acs5")
    (PList [PInt 2012; PInt 2010]) (PStr "out") (PBool false) example_fs
  = (example_fs_after, Returned (example_instance example_THIS_DIR))
  /\ censusreporter_url example_repr (example_instance example_THIS_DIR) tt
     = (tt, Raised (AttributeError "RAW_TABLE_NAME")).
Proof.
  pose proof example_construction as Hrun.
  split; [exact Hrun |].
  exact (censusreporter_url_needs_table_name example_int_of_str example_repr
           example_Path example_THIS_DIR unit tt _ _ _ _ _ _ _ _ _ Hrun).
Defined.

Lemma censusreporter_url_injective_example :
  let self1 :=
    {| ob_class := MobilityDownloader example_BaseTableConfig;
       ob_dict := ∅ |} in
  let self2 :=
    {| ob_class := MobilityBySexDownloader example_BaseTableConfig;
       ob_dict := ∅ |} in
  censusreporter_url example_repr self1 tt
  = censusreporter_url example_repr self2 tt
  /\ getattr self1 "RAW_TABLE_NAME" = Returned (PStr "B07003")
  /\ getattr self2 "RAW_TABLE_NAME" = Returned (PStr "B07003")
  /\ "B07003" = "B07003".
Proof.
  intros self1 self2.
  assert (Hurl : censusreporter_url example_repr self1 tt
                 = censusreporter_url example_repr self2 tt)
    by (vm_compute; reflexivity).
  assert (H1 : getattr self1 "RAW_TABLE_NAME" = Returned (PStr "B07003"))
    by (vm_compute; reflexivity).
  assert (H2 : getattr self2 "RAW_TABLE_NAME" = Returned (PStr "B07003"))
    by (vm_compute; reflexivity).
  split; [exact Hurl |]. split; [exact H1 |]. split; [exact H2 |].
  exact (censusreporter_url_injective example_repr unit tt self1 self2
           "B07003" "B07003" H1 H2 Hurl).
Defined.

Lemma every_geography_method_is_declared_example :
  class_getattr (BaseDownloader example_THIS_DIR) "download_msas"
  = Some (PFunction (Decorated MsasRawDownloader))
  /\ exists geo, geo ∈ GEO_LIST /\ "download_msas" = "download_" +:+ geo.
Proof.
  assert (Hget : class_getattr (BaseDownloader example_THIS_DIR)
                   "download_msas"
                 = Some (PFunction (Decorated MsasRawDownloader)))
    by (vm_compute; reflexivity).
  split; [exact Hget |].
  exact (proj1 (every_geography_method_is_declared example_THIS_DIR
                  "download_msas" MsasRawDownloader Hget)).
Defined.
